(** * pdm-venv: the virtualenv backends ([src/pdm_venv/backends.py])

    A shallow embedding of the [Backend] class hierarchy and of the part of
    the world it acts on (file system, console, child processes, the
    project's interpreter finder), followed by the properties of [create],
    [ident] and the three [perform_create] hooks. *)

From Stdlib Require Import ZArith Ascii String DecimalString.
From stdpp Require Import base strings list gmap.

Local Open Scope string_scope.
Local Open Scope list_scope.

(** ** Paths and the file system *)

(** An absolute, normalised [pathlib.Path], held as the list of its
    components, innermost first: [/envs/proj] is ["proj"; "envs"], the root
    is [[]].  The parent of a path is then the tail of the list, and the
    paths at or below [p] are those having [p] as a suffix.  As in pathlib
    a component [..] is kept as it is; the file system below looks every
    path up component by component as written, so it is the file system as
    seen through paths without [..] and without symbolic links. *)
Abbreviation Path := (list string).

Definition parent (p : Path) : Path := tail p.

Fixpoint split_on (sep : ascii) (s : string) : list string :=
  match s with
  | EmptyString => [EmptyString]
  | String c s' =>
      if Ascii.eqb c sep then EmptyString :: split_on sep s'
      else match split_on sep s' with
           | [] => [String c EmptyString]
           | w :: ws => String c w :: ws
           end
  end.

(** The components pathlib keeps of a segment, outermost first: empty
    components and ["."] are dropped. *)
Definition parts (seg : string) : list string :=
  List.filter (fun w => negb (String.eqb w "") && negb (String.eqb w "."))
              (split_on "/"%char seg).

(** [p / seg]: an absolute segment replaces [p], a relative one is appended. *)
Definition joinpath (p : Path) (seg : string) : Path :=
  if String.prefix "/" seg then rev (parts seg) else rev (parts seg) ++ p.

(** [str(p)] *)
Definition str (p : Path) : string :=
  "/" +:+ String.concat "/" (rev p).

Inductive Node :=
| Dir
| File (content : string).

Abbreviation FS := (gmap (list string) Node).

Inductive OSErrorKind :=
| FileExistsError
| FileNotFoundError
| NotADirectoryError
| PermissionError.

(** [Path.exists()] *)
Definition exists_ (fs : FS) (p : Path) : bool :=
  match fs !! p with Some _ => true | None => false end.

(** [Path.is_dir()] *)
Definition is_dir (fs : FS) (p : Path) : bool :=
  match fs !! p with Some Dir => true | _ => false end.

(** [os.mkdir(p)] *)
Definition os_mkdir (fs : FS) (p : Path) : OSErrorKind + FS :=
  match fs !! p with
  | Some _ => inl FileExistsError
  | None =>
      match fs !! parent p with
      | None => inl FileNotFoundError
      | Some (File _) => inl NotADirectoryError
      | Some Dir => inr (<[p := Dir]> fs)
      end
  end.

(** [Path.mkdir(parents=False, exist_ok=True)] *)
Definition mkdir_exist_ok (p : Path) (fs : FS) : OSErrorKind + FS :=
  match os_mkdir fs p with
  | inr fs' => inr fs'
  | inl FileNotFoundError => inl FileNotFoundError
  | inl e => if is_dir fs p then inr fs else inl e
  end.

(** [Path.mkdir(parents=True, exist_ok=True)]: pathlib tries [os.mkdir],
    on [FileNotFoundError] makes the parent the same way and tries again,
    and lets any other [OSError] pass when the path is a directory. *)
Fixpoint mkdir_parents_exist_ok (p : Path) (fs : FS) : OSErrorKind + FS :=
  match os_mkdir fs p with
  | inr fs' => inr fs'
  | inl FileNotFoundError =>
      match p with
      | [] => inl FileNotFoundError
      | _ :: up =>
          match mkdir_parents_exist_ok up fs with
          | inl e => inl e
          | inr fs1 => mkdir_exist_ok p fs1
          end
      end
  | inl e => if is_dir fs p then inr fs else inl e
  end.

(** [shutil.rmtree(p)]: removes a directory with everything below it, and
    refuses a path that is not a directory. *)
Definition rmtree (fs : FS) (p : Path) : OSErrorKind + FS :=
  match fs !! p with
  | None => inl FileNotFoundError
  | Some (File _) => inl NotADirectoryError
  | Some Dir => inr (filter (fun e : list string * Node => ¬ p `suffix_of` e.1) fs)
  end.

(** ** The host: interpreters, projects, processes *)

(** [pdm.models.python.PythonInfo], the fields the backends read. *)
Record PythonInfo := mkPythonInfo {
  executable : string;
  major : nat;
  minor : nat;
  identifier : string
}.

(** [pdm.Project] as the backends use it.  [venv_location] is
    [Path(project.config["venv.location"])]; [get_venv_prefix] is the value
    of [pdm_venv.utils.get_venv_prefix(project)], a helper outside this
    module that is taken as given; [find_interpreters hint] lists what the
    generator of that name yields, in order. *)
Record Project := mkProject {
  root : Path;
  venv_location : Path;
  get_venv_prefix : string;
  project_python : PythonInfo;
  find_interpreters : string -> list PythonInfo
}.

(** How [subprocess.check_call] ends: the child exits with a return code,
    or it cannot be started at all. *)
Inductive ProcOutcome :=
| Exited (returncode : Z)
| NotStarted (e : OSErrorKind).

(** The running process: [sys.executable], and what a command does to the
    file system when it is run. *)
Record Host := mkHost {
  sys_executable : string;
  spawn : list string -> FS -> ProcOutcome * FS
}.

(** ** Exceptions, events and the state *)

Inductive CalledProcessError :=
| mkCalledProcessError (returncode : Z) (cmd : list string).

(** The argument of a [VirtualenvCreateError]: a message, or the process
    error it wraps. *)
Inductive ErrorArg :=
| Message (msg : string)
| Wrapped (e : CalledProcessError).

Inductive Exception :=
| VirtualenvCreateError (arg : ErrorArg)
| PdmUsageError (msg : string)
| OSError (e : OSErrorKind).

Inductive Verbosity := NORMAL | DETAIL | DEBUG.

(** The two texts the backends print through [project.core.ui.echo]:
    [f"Run command: {cmd}"] and
    [f"Cleaning existing target directory {location}"]. *)
Inductive Notice :=
| RunCommand (cmd : list string)
| CleaningTarget (location : Path).

(** What a backend does to the outside, in the order it does it. *)
Inductive Event :=
| EvFindInterpreters (hint : string)
| EvEcho (msg : Notice) (err : bool) (verbosity : Verbosity)
| EvMkdir (p : Path)
| EvRmtree (p : Path)
| EvCheckCall (cmd : list string) (outcome : ProcOutcome).

(** The state a method runs in: the instance's [_resolved_interpreter]
    slot (empty until the cached property has been computed), the file
    system, and the events so far, oldest first. *)
Record State := mkState {
  cached : option PythonInfo;
  fs : FS;
  trace : list Event
}.

Inductive Result (A : Type) :=
| Raise (e : Exception)
| Return (a : A).
Arguments Raise {A} e.
Arguments Return {A} a.

(** A method: it ends by returning or raising, and what it did to the
    state before raising stays done. *)
Definition M (A : Type) : Type := State -> Result A * State.

Definition ret {A} (a : A) : M A := fun st => (Return a, st).

Definition raise {A} (e : Exception) : M A := fun st => (Raise e, st).

Definition bind {A B} (m : M A) (k : A -> M B) : M B :=
  fun st =>
    match m st with
    | (Return a, st') => k a st'
    | (Raise e, st') => (Raise e, st')
    end.

#[global] Instance M_ret : MRet M := @ret.
#[global] Instance M_bind : MBind M := fun A B k m => bind m k.

Definition emit (e : Event) : M unit :=
  fun st => (Return tt, mkState (cached st) (fs st) (trace st ++ [e])).

Definition get_fs : M FS := fun st => (Return (fs st), st).

Definition set_fs (fs' : FS) : M unit :=
  fun st => (Return tt, mkState (cached st) fs' (trace st)).

Definition get_cached : M (option PythonInfo) :=
  fun st => (Return (cached st), st).

Definition set_cached (i : PythonInfo) : M unit :=
  fun st => (Return tt, mkState (Some i) (fs st) (trace st)).

(** A file-system call: its [OSError] is raised, its result is the new
    file system. *)
Definition fs_call (e : Event) (op : FS -> OSErrorKind + FS) : M unit :=
  emit e;;
  f ← get_fs;
  match op f with
  | inl err => raise (OSError err)
  | inr f' => set_fs f'
  end.

(** [shutil.rmtree(p)] *)
Definition shutil_rmtree (p : Path) : M unit :=
  fs_call (EvRmtree p) (fun f => rmtree f p).

(** [p.mkdir(exist_ok=True, parents=True)] *)
Definition mkdir (p : Path) : M unit :=
  fs_call (EvMkdir p) (mkdir_parents_exist_ok p).

(** ** The backends *)

Inductive BackendKind :=
| VirtualenvBackend
| VenvBackend
| CondaBackend.

(** A backend instance: its class and what [__init__] stores. *)
Record Backend := mkBackend {
  kind : BackendKind;
  project : Project;
  python : option string
}.

(** [BACKENDS] *)
Definition BACKENDS (name : string) : option BackendKind :=
  if String.eqb name "virtualenv" then Some VirtualenvBackend
  else if String.eqb name "venv" then Some VenvBackend
  else if String.eqb name "conda" then Some CondaBackend
  else None.

(** Python's truth value of an [Optional[str]]: [None] and [""] are false. *)
Definition truthy (s : option string) : bool :=
  match s with
  | Some (String _ _) => true
  | _ => false
  end.

(** [str(n)] for a version number. *)
Definition str_nat (n : nat) : string :=
  NilZero.string_of_uint (Nat.to_uint n).

Section Backends.

Variable host : Host.

(** The body of the cached property [_resolved_interpreter]. *)
Definition resolve (self : Backend) : M PythonInfo :=
  match python self with
  | Some (String _ _ as hint) =>
      emit (EvFindInterpreters hint);;
      match find_interpreters (project self) hint with
      | i :: _ => ret i
      | [] =>
          raise (VirtualenvCreateError
                   (Message ("Can't find python interpreter " +:+ hint)))
      end
  | _ => ret (project_python (project self))
  end.

(** [Backend._resolved_interpreter]: a [cached_property] stores the value
    in the instance when the body returns; when the body raises, nothing
    is stored. *)
Definition _resolved_interpreter (self : Backend) : M PythonInfo :=
  c ← get_cached;
  match c with
  | Some i => ret i
  | None => i ← resolve self; set_cached i;; ret i
  end.

(** [Backend.ident], with [CondaBackend]'s override. *)
Definition ident (self : Backend) : M string :=
  match kind self, python self with
  | CondaBackend, Some (String _ _ as hint) => ret hint
  | _, _ => i ← _resolved_interpreter self; ret (identifier i)
  end.

(** [subprocess.check_call(cmd)]: runs the command; a non-zero return
    code raises [CalledProcessError], a command that cannot be started an
    [OSError]. *)
Definition check_call (cmd : list string) : M unit :=
  f ← get_fs;
  let '(outcome, f') := spawn host cmd f in
  emit (EvCheckCall cmd outcome);;
  match outcome with
  | NotStarted e => raise (OSError e)
  | Exited c =>
      set_fs f';;
      if Z.eqb c 0 then ret tt
      else raise (VirtualenvCreateError
                    (Wrapped (mkCalledProcessError c cmd)))
  end.

(** [Backend.subprocess_call]: the only handler is the one for
    [CalledProcessError], which [check_call] above already wraps. *)
Definition subprocess_call (self : Backend) (cmd : list string) : M unit :=
  emit (EvEcho (RunCommand cmd) false DETAIL);;
  check_call cmd.

(** [Backend._ensure_clean] *)
Definition _ensure_clean (self : Backend) (location : Path) (force : bool)
  : M unit :=
  f ← get_fs;
  if negb (exists_ f location) then ret tt
  else if negb force then
    raise (VirtualenvCreateError
             (Message ("The location " +:+ str location +:+ " is not empty")))
  else
    emit (EvEcho (CleaningTarget location) true NORMAL);;
    shutil_rmtree location.

(** [Backend.get_location] *)
Definition get_location (self : Backend) (name : option string) : M Path :=
  let venv_parent := venv_location (project self) in
  f ← get_fs;
  (if negb (is_dir f venv_parent) then mkdir venv_parent else ret tt);;
  n ← match name with
      | Some (String _ _ as n) => ret n
      | _ => ident self
      end;
  ret (joinpath venv_parent (get_venv_prefix (project self) +:+ n)).

(** [perform_create], one body per class. *)
Definition perform_create (self : Backend) (location : Path)
    (args : list string) : M unit :=
  match kind self with
  | VirtualenvBackend =>
      let cmd := [sys_executable host; "-m"; "virtualenv"; str location] in
      i ← _resolved_interpreter self;
      let cmd := cmd ++ ["-p"; executable i] in
      let cmd := cmd ++ args in
      subprocess_call self cmd
  | VenvBackend =>
      i ← _resolved_interpreter self;
      let cmd := [executable i; "-m"; "venv"; str location] ++ args in
      subprocess_call self cmd
  | CondaBackend =>
      python_ver ←
        match python self with
        | Some (String _ _ as hint) => ret hint
        | _ =>
            i ← _resolved_interpreter self;
            ret (str_nat (major i) +:+ "." +:+ str_nat (minor i))
        end;
      if existsb (String.prefix "python=") args then
        raise (PdmUsageError "Cannot use python= in conda creation arguments")
      else
        let cmd :=
          ["conda"; "create"; "--yes"; "--prefix"; str location; "pip";
           "python=" +:+ python_ver] ++ args in
        subprocess_call self cmd
  end.

(** The first statement of [Backend.create]: where the environment goes. *)
Definition create_location (self : Backend) (name : option string)
    (in_project : bool) : M Path :=
  if in_project then ret (joinpath (root (project self)) ".venv")
  else get_location self name.

(** [Backend.create] *)
Definition create (self : Backend) (name : option string)
    (args : list string) (force in_project : bool) : M Path :=
  location ← create_location self name in_project;
  _ensure_clean self location force;;
  perform_create self location args;;
  ret location.

End Backends.

(** ** Vocabulary of the properties *)

Definition is_find (e : Event) : bool :=
  match e with EvFindInterpreters _ => true | _ => false end.

Definition is_mkdir (e : Event) : bool :=
  match e with EvMkdir _ => true | _ => false end.

Definition is_rmtree (e : Event) : bool :=
  match e with EvRmtree _ => true | _ => false end.

Definition is_check_call (e : Event) : bool :=
  match e with EvCheckCall _ _ => true | _ => false end.

(** The events of looking for the place: probing interpreters and making
    the parent directory; nothing is removed and nothing is run. *)
Definition is_quiet (e : Event) : bool := is_find e || is_mkdir e.

(** How often the project's [find_interpreters] was asked. *)
Definition queries (t : list Event) : nat := length (List.filter is_find t).

(** [f'] is [f] with directories added on the way down to [p]: every entry
    of [f] is kept as it is, and a new entry is a directory at [p] or
    above it. *)
Definition grows (p : Path) (f f' : FS) : Prop :=
  ∀ q : Path,
    f' !! q = f !! q ∨ (f !! q = None ∧ f' !! q = Some Dir ∧ q `suffix_of` p).

(** [p] can be made with [mkdir -p]: the root is there and nothing on the
    way down to [p] is a file. *)
Definition makeable (f : FS) (p : Path) : Prop :=
  f !! ([] : Path) = Some Dir ∧
  ∀ (q : Path) (c : string), q `suffix_of` p → f !! q ≠ Some (File c).

(** What [_ensure_clean] raises on a location it may not remove. *)
Definition not_empty_error (location : Path) : Exception :=
  VirtualenvCreateError
    (Message ("The location " +:+ str location +:+ " is not empty")).

(** What [_ensure_clean] does to the outside when it removes a location:
    the notice on the error stream, then the removal. *)
Definition cleaning_events (location : Path) : list Event :=
  [EvEcho (CleaningTarget location) true NORMAL; EvRmtree location].

(** A use of a backend instance by its caller. *)
Inductive Access :=
| GetIdent
| CallCreate (name : option string) (args : list string)
             (force in_project : bool).

Definition access (host : Host) (self : Backend) (a : Access) : M unit :=
  match a with
  | GetIdent => ident self;; ret tt
  | CallCreate name args force in_project =>
      create host self name args force in_project;; ret tt
  end.

(** A caller using one instance again and again, going on after a raise. *)
Fixpoint accesses (host : Host) (self : Backend) (l : list Access)
    (st : State) : State :=
  match l with
  | [] => st
  | a :: l' => accesses host self l' (access host self a st).2
  end.

(** The finder has a match for the instance's hint, if it has one. *)
Definition findable (self : Backend) : Prop :=
  ∀ hint, python self = Some hint → find_interpreters (project self) hint ≠ [].

(** The queries made so far, and one more while nothing is cached. *)
Definition budget (st : State) : nat :=
  queries (trace st) + match cached st with Some _ => 0 | None => 1 end.

Definition within_budget (st st' : State) : Prop :=
  (budget st' ≤ budget st)%nat.

(** A method keeps a relation between the state it starts in and the
    state it ends in, however it ends. *)
Definition keeps {A} (R : State → State → Prop) (m : M A) : Prop :=
  ∀ st r st', m st = (r, st') → R st st'.

(** The events a run appended all satisfy [P]. *)
Definition appends (P : Event → bool) (st st' : State) : Prop :=
  ∃ evs, trace st' = trace st ++ evs ∧ forallb P evs = true.

(** The relations the methods are shown to keep: the file system is left
    alone, the cached interpreter is left alone, the file system gains
    directories on the way to [p] only. *)
Definition same_fs (st st' : State) : Prop := fs st' = fs st.

Definition same_cached (st st' : State) : Prop := cached st' = cached st.

Definition fs_grows (p : Path) (st st' : State) : Prop :=
  grows p (fs st) (fs st').

(** What [_resolved_interpreter] raises when the finder has nothing. *)
Definition not_found_error (hint : string) : Exception :=
  VirtualenvCreateError (Message ("Can't find python interpreter " +:+ hint)).

(** The instance has a hint and the finder has no match for it. *)
Definition unmatched (self : Backend) : Prop :=
  ∃ hint, python self = Some hint ∧ hint ≠ ""
          ∧ find_interpreters (project self) hint = [].

(** The instance has no use for the finder: it is a conda backend, or it
    has no hint. *)
Definition never_asks (self : Backend) : Prop :=
  kind self = CondaBackend ∨ truthy (python self) = false.

(** More relations between the state before and after: the finder was not
    asked, an interpreter once cached stays and saves any further query,
    an empty cache stays empty. *)
Definition same_queries (st st' : State) : Prop :=
  queries (trace st') = queries (trace st).

Definition settled (st st' : State) : Prop :=
  ∀ i, cached st = Some i →
       cached st' = Some i ∧ queries (trace st') = queries (trace st).

Definition stays_unresolved (st st' : State) : Prop :=
  cached st = None → cached st' = None.

(** A relation that looks at the cached interpreter and at the number of
    queries only. *)
Definition blind (R : State → State → Prop) : Prop :=
  ∀ st st', cached st' = cached st →
            queries (trace st') = queries (trace st) → R st st'.

(** Wherever the instance reads [_resolved_interpreter], the reading keeps
    [R]: a conda backend with a hint never reads it. *)
Definition resolves_within (R : State → State → Prop) (self : Backend)
  : Prop :=
  (kind self = CondaBackend ∧ truthy (python self) = true)
  ∨ keeps R (_resolved_interpreter self).

(** ** Sample data *)

Module Sample.

Definition py39 : PythonInfo :=
  mkPythonInfo "/usr/bin/python3.9" 3 9 "cpython-3.9".

Definition py311 : PythonInfo :=
  mkPythonInfo "/usr/bin/python3.11" 3 11 "cpython-3.11".

Definition finder (hint : string) : list PythonInfo :=
  if String.eqb hint "3.9" then [py39]
  else if String.eqb hint "3.11" then [py311; py39]
  else [].

Definition proj : Project :=
  mkProject ["proj"; "home"] ["envs"] "proj-" py39 finder.

Definition venv39 : Backend := mkBackend VenvBackend proj (Some "3.9").
Definition virtualenv39 : Backend :=
  mkBackend VirtualenvBackend proj (Some "3.9").
Definition conda311 : Backend := mkBackend CondaBackend proj (Some "3.11").
Definition conda_empty_hint : Backend := mkBackend CondaBackend proj (Some "").
Definition venv_unknown : Backend := mkBackend VenvBackend proj (Some "2.6").

Definition target : Path := ["proj-cpython-3.9"; "envs"].

(** Only the root. *)
Definition fs_bare : FS := {[ [] := Dir ]}.

(** The target is a directory with a file in it. *)
Definition fs_taken : FS :=
  <[ "pyvenv.cfg" :: target := File "home = /usr/bin" ]>
    (<[ target := Dir ]> (<[ ["envs"] := Dir ]> fs_bare)).

(** The target is a plain file. *)
Definition fs_file : FS :=
  <[ target := File "notes" ]> (<[ ["envs"] := Dir ]> fs_bare).

(** A tool that exits with 0 and leaves the file system as it found it. *)
Definition good_host : Host :=
  mkHost "/opt/pdm/bin/python" (fun _ f => (Exited 0, f)).

(** A tool that writes a partial file and then fails. *)
Definition bad_host : Host :=
  mkHost "/opt/pdm/bin/python"
         (fun _ f => (Exited 1, <[ "partial" :: target := File "" ]> f)).

(** A host on which no command can be started. *)
Definition no_tool_host : Host :=
  mkHost "/opt/pdm/bin/python" (fun _ f => (NotStarted FileNotFoundError, f)).

(** The parent directory is there, the target is free. *)
Definition fs_ready : FS := <[ ["envs"] := Dir ]> fs_bare.

(** A plain file sits where the parent directory should be. *)
Definition fs_parent_file : FS := <[ ["envs"] := File "" ]> fs_bare.

Definition venv_no_hint : Backend := mkBackend VenvBackend proj None.
Definition conda_no_hint : Backend := mkBackend CondaBackend proj None.

(** A new instance, nothing resolved and nothing done yet. *)
Definition fresh (f : FS) : State := mkState None f [].

End Sample.

(** ** The file system operations *)

Section FileSystem.

Implicit Types (f : FS) (p q : Path).

Lemma exists_is_dir f p : is_dir f p = true → exists_ f p = true.
Proof. unfold is_dir, exists_. by destruct (f !! p) as [[]|]. Qed.

Lemma is_dir_lookup f p : is_dir f p = true ↔ f !! p = Some Dir.
Proof.
  unfold is_dir. destruct (f !! p) as [[]|]; split; intros; congruence.
Qed.

Lemma exists_lookup f p : exists_ f p = true ↔ is_Some (f !! p).
Proof.
  unfold exists_. destruct (f !! p); split; intros H; eauto;
    try done; by destruct H.
Qed.

#[global] Instance grows_refl p : Reflexive (grows p).
Proof. intros f q. by left. Qed.

#[global] Instance grows_trans p : Transitive (grows p).
Proof.
  intros f1 f2 f3 H12 H23 q.
  destruct (H23 q) as [E|(N & D & S)], (H12 q) as [E'|(N' & D' & S')].
  - left. congruence.
  - right. rewrite E. done.
  - right. rewrite <- E'. done.
  - congruence.
Qed.

Lemma grows_suffix p p' f f' : p `suffix_of` p' → grows p f f' → grows p' f f'.
Proof.
  intros Hs H q. destruct (H q) as [E|(N & D & S)]; [by left|right].
  repeat split; try done. by etrans.
Qed.

Lemma grows_keeps p f f' q n : grows p f f' → f !! q = Some n → f' !! q = Some n.
Proof. intros H Hq. destruct (H q) as [E|(N & _)]; congruence. Qed.

Lemma grows_insert p f : f !! p = None → grows p f (<[p := Dir]> f).
Proof.
  intros Hp q. destruct (decide (p = q)) as [<-|Hne].
  - right. by rewrite lookup_insert_eq.
  - left. by rewrite lookup_insert_ne.
Qed.

Lemma os_mkdir_inr f p f' :
  os_mkdir f p = inr f' →
  f !! p = None ∧ f !! parent p = Some Dir ∧ f' = <[p := Dir]> f.
Proof.
  unfold os_mkdir. destruct (f !! p); [done|].
  destruct (f !! parent p) as [[]|]; naive_solver.
Qed.

Lemma os_mkdir_not_found f p :
  os_mkdir f p = inl FileNotFoundError → f !! p = None ∧ f !! parent p = None.
Proof.
  unfold os_mkdir. destruct (f !! p); [done|].
  by destruct (f !! parent p) as [[]|].
Qed.

Lemma mkdir_exist_ok_inr p f f' :
  mkdir_exist_ok p f = inr f' → is_dir f' p = true ∧ grows p f f'.
Proof.
  unfold mkdir_exist_ok. destruct (os_mkdir f p) as [e|f1] eqn:Hm.
  - destruct e; try done; destruct (is_dir f p) eqn:Hd; try done;
      intros [= <-]; done.
  - intros [= <-]. apply os_mkdir_inr in Hm as (Hp & _ & ->). split.
    + apply is_dir_lookup. by rewrite lookup_insert_eq.
    + by apply grows_insert.
Qed.

(** [mkdir -p] ends with the directory in place, and makes nothing but
    directories on the way to it. *)
Lemma mkdir_parents_exist_ok_inr p : ∀ f f',
  mkdir_parents_exist_ok p f = inr f' → is_dir f' p = true ∧ grows p f f'.
Proof.
  induction p as [|c up IH]; intros f f'; simpl.
  - destruct (os_mkdir f []) as [e|f1] eqn:Hm.
    + destruct e; try done; destruct (is_dir f []) eqn:Hd; try done;
        intros [= <-]; done.
    + intros [= <-]. apply os_mkdir_inr in Hm as (Hp & _ & ->). split.
      * apply is_dir_lookup. by rewrite lookup_insert_eq.
      * by apply grows_insert.
  - destruct (os_mkdir f (c :: up)) as [e|f1] eqn:Hm.
    + destruct e; try (destruct (is_dir f (c :: up)) eqn:Hd; try done;
        intros [= <-]; done).
      destruct (mkdir_parents_exist_ok up f) as [e|f1] eqn:Hup; [done|].
      intros Hlast. apply IH in Hup as [_ Hg].
      apply mkdir_exist_ok_inr in Hlast as [Hd Hg']. split; [done|].
      etrans; [|exact Hg']. eapply grows_suffix; [|exact Hg].
      apply suffix_cons_r. done.
    + intros [= <-]. apply os_mkdir_inr in Hm as (Hp & _ & ->). split.
      * apply is_dir_lookup. by rewrite lookup_insert_eq.
      * by apply grows_insert.
Qed.

Lemma makeable_parent f c up : makeable f (c :: up) → makeable f up.
Proof.
  intros [Hr Hf]. split; [done|]. intros q s Hq. apply Hf.
  by apply suffix_cons_r.
Qed.

Lemma makeable_grows p p' f f' : grows p' f f' → makeable f p → makeable f' p.
Proof.
  intros Hg [Hr Hf]. split.
  - by eapply grows_keeps.
  - intros q s Hq Hs. destruct (Hg q) as [E|(_ & D & _)].
    + rewrite E in Hs. by eapply Hf.
    + congruence.
Qed.

(** [mkdir -p] goes through wherever no file is in the way. *)
Lemma mkdir_parents_exist_ok_makeable p : ∀ f,
  makeable f p → ∃ f', mkdir_parents_exist_ok p f = inr f'.
Proof.
  induction p as [|c up IH]; intros f Hm.
  - destruct Hm as [Hr _]. simpl. unfold os_mkdir. rewrite Hr.
    unfold is_dir. rewrite Hr. by eexists.
  - simpl. unfold os_mkdir at 1. destruct (f !! (c :: up)) as [[|s]|] eqn:Hp.
    + unfold is_dir. rewrite Hp. by eexists.
    + destruct Hm as [_ Hf]. by destruct (Hf (c :: up) s).
    + simpl. destruct (f !! up) as [[|s]|] eqn:Hup.
      * by eexists.
      * destruct Hm as [_ Hf]. destruct (Hf up s); [|done].
        apply suffix_cons_r. done.
      * destruct (IH f (makeable_parent _ _ _ Hm)) as [f1 Hf1]. rewrite Hf1.
        apply mkdir_parents_exist_ok_inr in Hf1 as [Hd Hg].
        unfold mkdir_exist_ok, os_mkdir. simpl.
        apply is_dir_lookup in Hd. rewrite Hd.
        destruct (Hg (c :: up)) as [E|(_ & _ & S)].
        -- rewrite E, Hp. by eexists.
        -- by apply suffix_cons_not in S.
Qed.

(** [rmtree] of a directory leaves nothing at it or below it, and leaves
    the rest as it was. *)
Lemma rmtree_inr f p f' :
  rmtree f p = inr f' →
  f !! p = Some Dir ∧
  f' = filter (λ e : list string * Node, ¬ p `suffix_of` e.1) f ∧
  (∀ q, p `suffix_of` q → f' !! q = None) ∧
  (∀ q, ¬ p `suffix_of` q → f' !! q = f !! q).
Proof.
  unfold rmtree. destruct (f !! p) as [[|s]|] eqn:Hp; try done.
  intros [= <-]. repeat split; try done.
  - intros q Hq. apply map_lookup_filter_None. right. intros n _ Hn.
    by apply Hn.
  - intros q Hq. destruct (f !! q) as [n|] eqn:Hfq.
    + by apply map_lookup_filter_Some.
    + apply map_lookup_filter_None. by left.
Qed.

Lemma rmtree_dir f p :
  is_dir f p = true →
  rmtree f p = inr (filter (λ e : list string * Node, ¬ p `suffix_of` e.1) f).
Proof. intros Hd%is_dir_lookup. unfold rmtree. by rewrite Hd. Qed.

Lemma rmtree_file f p s :
  f !! p = Some (File s) → rmtree f p = inl NotADirectoryError.
Proof. intros Hp. unfold rmtree. by rewrite Hp. Qed.

End FileSystem.

(** ** Running methods *)

Section Running.

Context {A B : Type}.
Implicit Types (m : M A) (k : A → M B) (st : State).

Lemma bind_Return m k st a st1 :
  m st = (Return a, st1) → (m ≫= k) st = k a st1.
Proof. intros H. unfold mbind, M_bind, bind. by rewrite H. Qed.

Lemma bind_Raise m k st e st1 :
  m st = (Raise e, st1) → (m ≫= k) st = (Raise e, st1).
Proof. intros H. unfold mbind, M_bind, bind. by rewrite H. Qed.

Lemma bind_inv m k st r st2 :
  (m ≫= k) st = (r, st2) →
  (∃ a st1, m st = (Return a, st1) ∧ k a st1 = (r, st2)) ∨
  (∃ e, m st = (Raise e, st2) ∧ r = Raise e).
Proof.
  unfold mbind, M_bind, bind. destruct (m st) as [[e|a] st1] eqn:Hm.
  - intros [= <- <-]. right. by exists e.
  - intros Hk. left. by exists a, st1.
Qed.

End Running.

Section Keeps.

Context (R : State → State → Prop) `{!PreOrder R}.

Lemma keeps_ret {A} (a : A) : keeps R (ret a).
Proof. intros st r st' [= <- <-]. done. Qed.

Lemma keeps_raise {A} (e : Exception) : keeps R (raise (A:=A) e).
Proof. intros st r st' [= <- <-]. done. Qed.

Lemma keeps_get_fs : keeps R get_fs.
Proof. intros st r st' [= <- <-]. done. Qed.

Lemma keeps_get_cached : keeps R get_cached.
Proof. intros st r st' [= <- <-]. done. Qed.

Lemma keeps_bind {A B} (m : M A) (k : A → M B) :
  keeps R m → (∀ a, keeps R (k a)) → keeps R (m ≫= k).
Proof.
  intros Hm Hk st r st2 [(a & st1 & H1 & H2)|(e & H1 & _)]%bind_inv.
  - etrans; [by eapply Hm|by eapply Hk].
  - by eapply Hm.
Qed.

End Keeps.

(** One step through a method's text. *)
Ltac keeps_step :=
  lazymatch goal with
  | |- keeps _ (mbind _ _) => apply keeps_bind; [try apply _| |intros ?]
  | |- keeps _ (ret _) => apply keeps_ret; apply _
  | |- keeps _ (raise _) => apply keeps_raise; apply _
  | |- keeps _ get_fs => apply keeps_get_fs; apply _
  | |- keeps _ get_cached => apply keeps_get_cached; apply _
  | |- keeps _ (match ?x with _ => _ end) => destruct x eqn:?
  end.

Section Relations.

(** *** Appending events *)

#[global] Instance appends_preorder P : PreOrder (appends P).
Proof.
  split.
  - intros st. exists []. by rewrite app_nil_r.
  - intros s1 s2 s3 (e1 & H1 & F1) (e2 & H2 & F2). exists (e1 ++ e2). split.
    + by rewrite H2, H1, app_assoc.
    + by rewrite forallb_app, F1, F2.
Qed.

Lemma appends_weaken (P Q : Event → bool) st st' :
  (∀ e, P e = true → Q e = true) → appends P st st' → appends Q st st'.
Proof.
  intros HPQ (evs & Ht & Hf). exists evs. split; [done|].
  apply forallb_forall. intros e He. apply HPQ.
  by eapply forallb_forall in Hf.
Qed.

Lemma keeps_weaken {A} (P Q : Event → bool) (m : M A) :
  (∀ e, P e = true → Q e = true) → keeps (appends P) m → keeps (appends Q) m.
Proof. intros HPQ Hm st r st' H. eapply appends_weaken; eauto. Qed.

Lemma appends_emit P e : P e = true → keeps (appends P) (emit e).
Proof.
  intros HP st r st' [= <- <-]. exists [e]. simpl. by rewrite HP.
Qed.

Lemma appends_set_fs P f : keeps (appends P) (set_fs f).
Proof. intros st r st' [= <- <-]. exists []. simpl. by rewrite app_nil_r. Qed.

Lemma appends_set_cached P i : keeps (appends P) (set_cached i).
Proof. intros st r st' [= <- <-]. exists []. simpl. by rewrite app_nil_r. Qed.

(** An event of the run is an event the run appended. *)
Lemma appends_elem P st st' evs e :
  appends P st st' → trace st' = trace st ++ evs → e ∈ evs → P e = true.
Proof.
  intros (evs' & Ht & Hf) Ht' He. rewrite Ht in Ht'.
  apply app_inv_head in Ht' as ->.
  eapply forallb_forall in Hf; [done|]. by apply list_elem_of_In.
Qed.

(** *** Leaving the file system alone *)

#[global] Instance same_fs_preorder : PreOrder same_fs.
Proof. split; unfold same_fs; [done|congruence]. Qed.

Lemma same_fs_emit e : keeps same_fs (emit e).
Proof. by intros st r st' [= <- <-]. Qed.

Lemma same_fs_set_cached i : keeps same_fs (set_cached i).
Proof. by intros st r st' [= <- <-]. Qed.

(** *** Leaving the cached interpreter alone *)

#[global] Instance same_cached_preorder : PreOrder same_cached.
Proof. split; unfold same_cached; [done|congruence]. Qed.

Lemma same_cached_emit e : keeps same_cached (emit e).
Proof. by intros st r st' [= <- <-]. Qed.

Lemma same_cached_set_fs f : keeps same_cached (set_fs f).
Proof. by intros st r st' [= <- <-]. Qed.

(** *** Adding directories only *)

#[global] Instance fs_grows_preorder p : PreOrder (fs_grows p).
Proof.
  split.
  - intros st. apply grows_refl.
  - intros s1 s2 s3. apply grows_trans.
Qed.

Lemma fs_grows_emit p e : keeps (fs_grows p) (emit e).
Proof. intros st r st' [= <- <-]. apply grows_refl. Qed.

Lemma fs_grows_set_cached p i : keeps (fs_grows p) (set_cached i).
Proof. intros st r st' [= <- <-]. apply grows_refl. Qed.

End Relations.

Create HintDb keeps.

#[global] Hint Resolve appends_set_fs appends_set_cached same_fs_emit
  same_fs_set_cached same_cached_emit same_cached_set_fs fs_grows_emit
  fs_grows_set_cached : keeps.
#[global] Hint Extern 1 (keeps (appends _) (emit _)) =>
  (apply appends_emit; reflexivity) : keeps.

Ltac keeps_auto := repeat keeps_step; eauto with keeps.

(** ** What each method does *)

Section Methods.

Context (host : Host) (self : Backend).

(** *** Resolving the interpreter *)

Lemma resolve_appends : keeps (appends is_find) (resolve self).
Proof. unfold resolve. keeps_auto. Qed.

Lemma resolve_same_fs : keeps same_fs (resolve self).
Proof. unfold resolve. keeps_auto. Qed.

Lemma _resolved_interpreter_appends :
  keeps (appends is_find) (_resolved_interpreter self).
Proof. unfold _resolved_interpreter. keeps_auto. apply resolve_appends. Qed.

Lemma _resolved_interpreter_same_fs :
  keeps same_fs (_resolved_interpreter self).
Proof. unfold _resolved_interpreter. keeps_auto. apply resolve_same_fs. Qed.

Lemma ident_appends : keeps (appends is_find) (ident self).
Proof.
  unfold ident. keeps_auto; apply _resolved_interpreter_appends.
Qed.

Lemma ident_same_fs : keeps same_fs (ident self).
Proof.
  unfold ident. keeps_auto; apply _resolved_interpreter_same_fs.
Qed.

(** *** File-system calls *)

Lemma fs_call_run e op st :
  fs_call e op st =
    match op (fs st) with
    | inl err =>
        (Raise (OSError err), mkState (cached st) (fs st) (trace st ++ [e]))
    | inr f' => (Return tt, mkState (cached st) f' (trace st ++ [e]))
    end.
Proof.
  unfold fs_call, mbind, M_bind, bind, emit, get_fs. simpl.
  by destruct (op (fs st)).
Qed.

Lemma fs_call_appends P e op : P e = true → keeps (appends P) (fs_call e op).
Proof.
  intros HP st r st' H. rewrite fs_call_run in H.
  exists [e]. simpl. rewrite HP.
  by destruct (op (fs st)); injection H as <- <-.
Qed.

Lemma mkdir_fs_grows p : keeps (fs_grows p) (mkdir p).
Proof.
  intros st r st' H. unfold mkdir in H. rewrite fs_call_run in H.
  destruct (mkdir_parents_exist_ok p (fs st)) as [err|f'] eqn:Hm;
    injection H as <- <-; unfold fs_grows; simpl.
  - apply grows_refl.
  - by apply mkdir_parents_exist_ok_inr in Hm as [_ Hg].
Qed.

Lemma mkdir_Return p st st' :
  mkdir p st = (Return tt, st') → is_dir (fs st') p = true.
Proof.
  unfold mkdir. rewrite fs_call_run.
  destruct (mkdir_parents_exist_ok p (fs st)) as [err|f'] eqn:Hm; [done|].
  intros [= <-]. simpl. by apply mkdir_parents_exist_ok_inr in Hm as [Hd _].
Qed.

(** *** Looking for the place *)

Lemma get_location_appends name : keeps (appends is_quiet) (get_location self name).
Proof.
  unfold get_location. keeps_auto.
  - unfold mkdir. apply fs_call_appends. done.
  - eapply keeps_weaken; [|apply ident_appends].
    intros e He. unfold is_quiet. by rewrite He.
  - eapply keeps_weaken; [|apply ident_appends].
    intros e He. unfold is_quiet. by rewrite He.
Qed.

Lemma get_location_fs_grows name :
  keeps (fs_grows (venv_location (project self))) (get_location self name).
Proof.
  assert (keeps (fs_grows (venv_location (project self))) (ident self)) as Hi.
  { intros st r st' H. apply ident_same_fs in H. unfold fs_grows.
    rewrite H. apply grows_refl. }
  unfold get_location. keeps_auto. apply mkdir_fs_grows.
Qed.

Lemma create_location_appends name in_project :
  keeps (appends is_quiet) (create_location self name in_project).
Proof.
  unfold create_location. keeps_auto. apply get_location_appends.
Qed.

Lemma create_location_fs_grows name in_project :
  keeps (fs_grows (venv_location (project self)))
        (create_location self name in_project).
Proof.
  unfold create_location. keeps_auto. apply get_location_fs_grows.
Qed.

(** What is there when [create] starts is there, unchanged, when the
    place has been found. *)
Lemma create_location_keeps_entries name in_project st r st1 q n :
  create_location self name in_project st = (r, st1) →
  fs st !! q = Some n → fs st1 !! q = Some n.
Proof.
  intros H%create_location_fs_grows. by eapply grows_keeps.
Qed.

(** *** The clean check *)

Lemma _ensure_clean_absent location force st :
  exists_ (fs st) location = false →
  _ensure_clean self location force st = (Return tt, st).
Proof.
  intros He. unfold _ensure_clean, mbind, M_bind, bind, get_fs. by rewrite He.
Qed.

Lemma _ensure_clean_refuses location st :
  exists_ (fs st) location = true →
  _ensure_clean self location false st = (Raise (not_empty_error location), st).
Proof.
  intros He. unfold _ensure_clean, mbind, M_bind, bind, get_fs. by rewrite He.
Qed.

Lemma _ensure_clean_force location st :
  exists_ (fs st) location = true →
  _ensure_clean self location true st =
    match rmtree (fs st) location with
    | inl err =>
        (Raise (OSError err),
         mkState (cached st) (fs st) (trace st ++ cleaning_events location))
    | inr f' =>
        (Return tt,
         mkState (cached st) f' (trace st ++ cleaning_events location))
    end.
Proof.
  intros He. unfold _ensure_clean, mbind, M_bind, bind, get_fs at 1.
  rewrite He. simpl. unfold shutil_rmtree. rewrite fs_call_run. simpl.
  rewrite <- app_assoc. done.
Qed.

Lemma _ensure_clean_appends location force :
  keeps (appends (λ e, negb (is_check_call e) && negb (is_quiet e)))
        (_ensure_clean self location force).
Proof.
  intros st r st' H. destruct (exists_ (fs st) location) eqn:He.
  - destruct force.
    + rewrite _ensure_clean_force in H by done.
      exists (cleaning_events location).
      by destruct (rmtree (fs st) location); injection H as <- <-.
    + rewrite _ensure_clean_refuses in H by done. injection H as <- <-.
      reflexivity.
  - rewrite _ensure_clean_absent in H by done. injection H as <- <-.
    reflexivity.
Qed.

Lemma _ensure_clean_same_cached location force :
  keeps same_cached (_ensure_clean self location force).
Proof.
  intros st r st' H. destruct (exists_ (fs st) location) eqn:He.
  - destruct force.
    + rewrite _ensure_clean_force in H by done.
      by destruct (rmtree (fs st) location); injection H as <- <-.
    + rewrite _ensure_clean_refuses in H by done. by injection H as <- <-.
  - rewrite _ensure_clean_absent in H by done. by injection H as <- <-.
Qed.

(** When the clean check has removed something, it was the location, and
    nothing is left of it. *)
Lemma _ensure_clean_Return_rmtree location force st st' evs p :
  _ensure_clean self location force st = (Return tt, st') →
  trace st' = trace st ++ evs → EvRmtree p ∈ evs →
  ∀ q : Path, p `suffix_of` q → fs st' !! q = None.
Proof.
  intros H Ht Hp. destruct (exists_ (fs st) location) eqn:He.
  - destruct force.
    + rewrite _ensure_clean_force in H by done.
      destruct (rmtree (fs st) location) as [err|f'] eqn:Hr; [done|].
      injection H as <-. simpl in *. apply app_inv_head in Ht as <-.
      unfold cleaning_events in Hp.
      apply rmtree_inr in Hr as (_ & _ & Hgone & _).
      apply elem_of_cons in Hp as [?|Hp]; [done|].
      apply list_elem_of_singleton in Hp as [= ->]. exact Hgone.
    + by rewrite _ensure_clean_refuses in H.
  - rewrite _ensure_clean_absent in H by done. injection H as <-.
    rewrite <- (app_nil_r (trace st)) in Ht at 1.
    apply app_inv_head in Ht as <-. by apply elem_of_nil in Hp.
Qed.

(** *** Running the command *)

Lemma subprocess_call_run cmd st :
  subprocess_call host self cmd st =
    let '(outcome, f') := spawn host cmd (fs st) in
    let t := trace st ++
             [EvEcho (RunCommand cmd) false DETAIL; EvCheckCall cmd outcome] in
    match outcome with
    | NotStarted e => (Raise (OSError e), mkState (cached st) (fs st) t)
    | Exited c =>
        (if Z.eqb c 0 then Return tt
         else Raise (VirtualenvCreateError
                       (Wrapped (mkCalledProcessError c cmd))),
         mkState (cached st) f' t)
    end.
Proof.
  unfold subprocess_call, check_call, mbind, M_bind, bind, emit, get_fs.
  simpl. destruct (spawn host cmd (fs st)) as [[c|e] f']; simpl.
  - destruct (Z.eqb c 0); simpl; by rewrite <- app_assoc.
  - by rewrite <- app_assoc.
Qed.

(** The hook either stops before any command, having at most asked for
    the interpreter, or asks for the interpreter and runs one command. *)
Lemma perform_create_inv location args st r st' :
  perform_create host self location args st = (r, st') →
  (∃ e, r = Raise e ∧ appends is_find st st' ∧ fs st' = fs st) ∨
  (∃ s cmd, appends is_find st s ∧ fs s = fs st ∧
            subprocess_call host self cmd s = (r, st')).
Proof.
  unfold perform_create. destruct (kind self).
  - intros [(i & s & Hi & Hc)|(e & Hi & ->)]%bind_inv.
    + right. exists s. eexists. split; [|split]; [| |exact Hc].
      * by eapply _resolved_interpreter_appends.
      * by eapply _resolved_interpreter_same_fs.
    + left. exists e. split; [done|]. split.
      * by eapply _resolved_interpreter_appends.
      * by eapply _resolved_interpreter_same_fs.
  - intros [(i & s & Hi & Hc)|(e & Hi & ->)]%bind_inv.
    + right. exists s. eexists. split; [|split]; [| |exact Hc].
      * by eapply _resolved_interpreter_appends.
      * by eapply _resolved_interpreter_same_fs.
    + left. exists e. split; [done|]. split.
      * by eapply _resolved_interpreter_appends.
      * by eapply _resolved_interpreter_same_fs.
  - set (ver := match python self with
                | Some (String _ _ as hint) => ret hint
                | _ => _
                end).
    assert (keeps (appends is_find) ver ∧ keeps same_fs ver) as [Ha Hf].
    { subst ver. split; keeps_auto;
        solve [apply _resolved_interpreter_appends
              |apply _resolved_interpreter_same_fs]. }
    intros [(v & s & Hv & Hc)|(e & Hv & ->)]%bind_inv.
    + destruct (existsb (String.prefix "python=") args).
      * injection Hc as <- <-. left. eexists. split; [done|]. split.
        -- by eapply Ha.
        -- by eapply Hf.
      * right. exists s. eexists. split; [|split]; [| |exact Hc].
        -- by eapply Ha.
        -- by eapply Hf.
    + left. exists e. split; [done|]. split.
      * by eapply Ha.
      * by eapply Hf.
Qed.

Lemma subprocess_call_appends cmd :
  keeps (appends (λ e, negb (is_rmtree e) && negb (is_mkdir e)))
        (subprocess_call host self cmd).
Proof.
  intros st r st' H. rewrite subprocess_call_run in H.
  destruct (spawn host cmd (fs st)) as [[c|e] f']; injection H as <- <-;
    by eexists [_; _].
Qed.

Lemma perform_create_appends location args :
  keeps (appends (λ e, negb (is_rmtree e) && negb (is_mkdir e)))
        (perform_create host self location args).
Proof.
  intros st r st' [(e & _ & Ha & _)|(s & cmd & Ha & _ & Hc)]%perform_create_inv.
  - eapply appends_weaken; [|exact Ha]. by intros [].
  - etrans; [|by eapply subprocess_call_appends].
    eapply appends_weaken; [|exact Ha]. by intros [].
Qed.

Lemma get_location_run name st :
  get_location self name st =
    ((if negb (is_dir (fs st) (venv_location (project self)))
      then mkdir (venv_location (project self)) else ret tt);;
     n ← match name with
         | Some (String _ _ as n) => ret n
         | _ => ident self
         end;
     ret (joinpath (venv_location (project self))
                   (get_venv_prefix (project self) +:+ n))) st.
Proof. reflexivity. Qed.

(** With the parent directory in place, looking for the place leaves the
    file system as it is. *)
Lemma create_location_same_fs name in_project st r st1 :
  in_project = true ∨ is_dir (fs st) (venv_location (project self)) = true →
  create_location self name in_project st = (r, st1) → fs st1 = fs st.
Proof.
  unfold create_location. destruct in_project.
  - by intros _ [= <- <-].
  - intros [?|Hd]; [done|]. rewrite get_location_run, Hd. simpl negb. cbv iota.
    intros H. refine ((_ : keeps same_fs _) st r st1 H).
    keeps_auto; apply ident_same_fs.
Qed.

End Methods.

Lemma appends_elems P st st' :
  appends P st st' →
  ∃ evs, trace st' = trace st ++ evs ∧ ∀ e, e ∈ evs → P e = true.
Proof.
  intros (evs & Ht & Hf). exists evs. split; [done|]. intros e He.
  eapply forallb_forall in Hf; [done|]. by apply list_elem_of_In.
Qed.

(** ** The properties *)

(** C1: for every backend, [create] without [force] on a target location
    that exists raises the location-not-empty error; what was in the file
    system is still there unchanged, nothing has been removed and no
    command has been run. *)
Theorem create_refuses_existing_location
    host self name args in_project st location st1 :
  create_location self name in_project st = (Return location, st1) →
  exists_ (fs st) location = true →
  create host self name args false in_project st =
    (Raise (not_empty_error location), st1)
  ∧ (∀ (q : Path) n, fs st !! q = Some n → fs st1 !! q = Some n)
  ∧ (∃ evs, trace st1 = trace st ++ evs ∧
       ∀ e, e ∈ evs → is_rmtree e = false ∧ is_check_call e = false)
  ∧ (in_project = true ∨
     is_dir (fs st) (venv_location (project self)) = true →
     fs st1 = fs st).
Proof.
  intros Hloc Hex.
  assert (exists_ (fs st1) location = true) as Hex1.
  { apply exists_lookup in Hex as [n Hn]. apply exists_lookup. exists n.
    by eapply create_location_keeps_entries. }
  split; [|split; [|split]].
  - unfold create. rewrite (bind_Return _ _ _ _ _ Hloc).
    by rewrite (bind_Raise _ _ _ _ _ (_ensure_clean_refuses self _ _ Hex1)).
  - intros q n. by eapply create_location_keeps_entries.
  - apply create_location_appends, appends_elems in Hloc as (evs & Ht & He).
    exists evs. split; [done|]. intros e Hq%He. by destruct e.
  - intros Hd. by eapply create_location_same_fs.
Qed.

(** On the sample project, with the target directory taken. *)
Lemma create_refuses_existing_location_witness :
  create Sample.good_host Sample.venv39 None ["--copies"] false false
         (Sample.fresh Sample.fs_taken) =
    (Raise (not_empty_error Sample.target),
     mkState (Some Sample.py39) Sample.fs_taken [EvFindInterpreters "3.9"]).
Proof.
  refine (proj1 (create_refuses_existing_location
                   Sample.good_host Sample.venv39 None ["--copies"] false
                   (Sample.fresh Sample.fs_taken) Sample.target _ _ _)).
  - vm_compute. reflexivity.
  - vm_compute. reflexivity.
Defined.

(** C2, on a file: the target location exists as a plain file; [create]
    with [force] prints the notice, [rmtree] refuses the file, and the
    file is still there when [create] has raised. *)
Lemma create_force_on_file_counterexample :
  exists_ Sample.fs_file Sample.target = true
  ∧ create Sample.good_host Sample.venv39 None [] true false
           (Sample.fresh Sample.fs_file) =
      (Raise (OSError NotADirectoryError),
       mkState (Some Sample.py39) Sample.fs_file
               (EvFindInterpreters "3.9" :: cleaning_events Sample.target))
  ∧ Sample.fs_file !! Sample.target = Some (File "notes").
Proof. vm_compute. done. Qed.

(** C2, amended: for every backend, [create] with [force] on a target
    location that is an existing directory first prints the notice on the
    error stream, then removes the directory with all that is below it,
    and only then enters the creation hook: whatever the hook does, any
    command it runs included, comes after the removal. *)
Theorem create_force_removes_before_creating
    host self name args in_project st location st1 :
  create_location self name in_project st = (Return location, st1) →
  is_dir (fs st) location = true →
  ∃ cleaned,
    _ensure_clean self location true st1 = (Return tt, cleaned)
    ∧ trace cleaned = trace st1 ++ cleaning_events location
    ∧ (∀ q : Path, location `suffix_of` q → fs cleaned !! q = None)
    ∧ (∀ q : Path, ¬ location `suffix_of` q → fs cleaned !! q = fs st1 !! q)
    ∧ (∃ evs, trace st1 = trace st ++ evs ∧
         ∀ e, e ∈ evs → is_rmtree e = false ∧ is_check_call e = false)
    ∧ create host self name args true in_project st =
        (perform_create host self location args;; ret location) cleaned
    ∧ ∀ r st', create host self name args true in_project st = (r, st') →
        ∃ evs', trace st' = trace cleaned ++ evs' ∧
          ∀ e, e ∈ evs' → is_rmtree e = false.
Proof.
  intros Hloc Hd.
  assert (is_dir (fs st1) location = true) as Hd1.
  { apply is_dir_lookup. eapply create_location_keeps_entries; [done|].
    by apply is_dir_lookup. }
  pose proof (_ensure_clean_force self location st1 (exists_is_dir _ _ Hd1))
    as Hclean.
  rewrite (rmtree_dir _ _ Hd1) in Hclean.
  destruct (rmtree_inr _ _ _ (rmtree_dir _ _ Hd1)) as (_ & _ & Hgone & Hrest).
  eexists. split; [exact Hclean|]. simpl.
  assert (create host self name args true in_project st =
            (perform_create host self location args;; ret location)
              (mkState (cached st1)
                 (filter (λ e : list string * Node, ¬ location `suffix_of` e.1)
                         (fs st1))
                 (trace st1 ++ cleaning_events location))) as Hcreate.
  { unfold create. rewrite (bind_Return _ _ _ _ _ Hloc).
    by rewrite (bind_Return _ _ _ _ _ Hclean). }
  repeat split; try done.
  - apply create_location_appends, appends_elems in Hloc as (evs & Ht & He).
    exists evs. split; [done|]. intros e Hq%He. by destruct e.
  - intros r st'. rewrite Hcreate. intros H.
    assert (keeps (appends (λ e, negb (is_rmtree e) && negb (is_mkdir e)))
              (perform_create host self location args;; ret location)) as K.
    { keeps_auto. apply perform_create_appends. }
    apply K, appends_elems in H as (evs' & Ht & He). exists evs'.
    split; [done|]. intros e Hq%He. by destruct e.
Qed.

(** On the sample project: the taken directory is removed, then the tool runs. *)
Lemma create_force_removes_before_creating_witness :
  create Sample.good_host Sample.venv39 None ["--copies"] true false
         (Sample.fresh Sample.fs_taken) =
    (Return Sample.target,
     mkState (Some Sample.py39) (<[ ["envs"] := Dir ]> Sample.fs_bare)
       (EvFindInterpreters "3.9" :: cleaning_events Sample.target ++
        [EvEcho (RunCommand ["/usr/bin/python3.9"; "-m"; "venv";
                             "/envs/proj-cpython-3.9"; "--copies"])
                false DETAIL;
         EvCheckCall ["/usr/bin/python3.9"; "-m"; "venv";
                      "/envs/proj-cpython-3.9"; "--copies"] (Exited 0)])).
Proof.
  destruct (create_force_removes_before_creating
              Sample.good_host Sample.venv39 None ["--copies"] false
              (Sample.fresh Sample.fs_taken) Sample.target
              (mkState (Some Sample.py39) Sample.fs_taken
                       [EvFindInterpreters "3.9"]))
    as (cleaned & Hclean & _ & _ & _ & _ & Hcreate & _).
  - vm_compute. reflexivity.
  - vm_compute. reflexivity.
  - rewrite Hcreate. injection Hclean as <-. vm_compute. reflexivity.
Defined.

Section CondaPin.

Context (host : Host) (self : Backend) (args : list string).
Hypothesis Hkind : kind self = CondaBackend.
Hypothesis Hpin : existsb (String.prefix "python=") args = true.

(** The conda hook stops at the pin check: it raises before any command,
    and has at most filled in the cached interpreter. *)
Lemma perform_create_conda_pin location st :
  ∃ st',
    perform_create host self location args st =
      (Raise (PdmUsageError "Cannot use python= in conda creation arguments"),
       st')
    ∧ fs st' = fs st ∧ trace st' = trace st.
Proof using Hkind Hpin.
  unfold perform_create, _resolved_interpreter, resolve. rewrite Hkind, Hpin.
  unfold mbind, M_bind, bind, get_cached, set_cached, ret, raise.
  destruct (python self) as [[|c h]|]; destruct (cached st); simpl; eauto.
Qed.

End CondaPin.

(** C3, with the location taken: the arguments carry a [python=] pin, the
    target location exists and [force] is off; [create] raises the
    location-not-empty error, not the usage error. *)
Lemma conda_pin_on_existing_location_counterexample :
  existsb (String.prefix "python=") ["python=3.8"] = true
  ∧ create Sample.good_host Sample.conda311 (Some "cpython-3.9")
           ["python=3.8"] false false (Sample.fresh Sample.fs_taken) =
      (Raise (not_empty_error Sample.target), Sample.fresh Sample.fs_taken).
Proof. vm_compute. done. Qed.

(** C3, amended: for the conda backend, whenever an extra argument starts
    with [python=], the creation hook raises the usage error without
    running anything, so [create] always raises and never runs a command;
    what it raises is the usage error whenever finding the location and
    the clean check went through. *)
Theorem conda_rejects_python_pin host self name args force in_project st :
  kind self = CondaBackend →
  existsb (String.prefix "python=") args = true →
  (∀ location s, ∃ s',
     perform_create host self location args s =
       (Raise (PdmUsageError "Cannot use python= in conda creation arguments"),
        s')
     ∧ fs s' = fs s ∧ trace s' = trace s)
  ∧ ∃ e st',
      create host self name args force in_project st = (Raise e, st')
      ∧ (∃ evs, trace st' = trace st ++ evs ∧
           ∀ ev, ev ∈ evs → is_check_call ev = false)
      ∧ (∀ location st1 st2,
           create_location self name in_project st = (Return location, st1) →
           _ensure_clean self location force st1 = (Return tt, st2) →
           e = PdmUsageError "Cannot use python= in conda creation arguments"
           ∧ fs st' = fs st2 ∧ trace st' = trace st2).
Proof.
  intros Hkind Hpin. split.
  { intros location s. by apply perform_create_conda_pin. }
  set (quiet := λ ev, negb (is_check_call ev)).
  assert (∀ st', appends quiet st st' →
            ∃ evs, trace st' = trace st ++ evs ∧
              ∀ ev, ev ∈ evs → is_check_call ev = false) as Hquiet.
  { intros st' (evs & Ht & He)%appends_elems. exists evs. split; [done|].
    intros ev Hq%He. by destruct ev. }
  unfold create.
  destruct (create_location self name in_project st) as [[e1|location] st1]
    eqn:Hloc.
  - exists e1, st1. rewrite (bind_Raise _ _ _ _ _ Hloc).
    split; [done|]. split; [|done].
    apply Hquiet. eapply appends_weaken;
      [|by eapply create_location_appends]. by intros [].
  - assert (appends quiet st st1) as H1.
    { eapply appends_weaken; [|by eapply create_location_appends].
      by intros []. }
    rewrite (bind_Return _ _ _ _ _ Hloc).
    destruct (_ensure_clean self location force st1) as [[e2|[]] st2] eqn:Hc.
    + exists e2, st2. rewrite (bind_Raise _ _ _ _ _ Hc).
      split; [done|]. split.
      * apply Hquiet. etrans; [exact H1|].
        eapply appends_weaken; [|by eapply _ensure_clean_appends].
        by intros [].
      * intros ? ? ? [= <- <-]. by rewrite Hc.
    + rewrite (bind_Return _ _ _ _ _ Hc).
      destruct (perform_create_conda_pin host self args Hkind Hpin location st2)
        as (s' & Hp & Hfs & Htr).
      eexists _, s'. rewrite (bind_Raise _ _ _ _ _ Hp).
      split; [done|]. split.
      * apply Hquiet. etrans; [exact H1|]. etrans.
        -- eapply appends_weaken; [|by eapply _ensure_clean_appends].
           by intros [].
        -- exists []. by rewrite app_nil_r.
      * intros ? ? ? [= <- <-]. rewrite Hc. by intros [= <-].
Qed.

(** On the sample project, with a free location. *)
Lemma conda_rejects_python_pin_witness :
  ∃ st',
    create Sample.good_host Sample.conda311 None ["-c"; "python=3.8"] true
           false (Sample.fresh Sample.fs_bare) =
      (Raise (PdmUsageError "Cannot use python= in conda creation arguments"),
       st').
Proof.
  destruct (conda_rejects_python_pin
              Sample.good_host Sample.conda311 None ["-c"; "python=3.8"] true
              false (Sample.fresh Sample.fs_bare) eq_refl eq_refl)
    as (_ & e & st' & Hcreate & _ & Hreach).
  exists st'. rewrite Hcreate. f_equal. f_equal.
  eapply Hreach; vm_compute; reflexivity.
Defined.

(** *** Memoized resolution *)

Lemma queries_snoc t e :
  queries (t ++ [e]) = queries t + (if is_find e then 1 else 0).
Proof.
  unfold queries. rewrite List.filter_app, length_app. simpl.
  by destruct (is_find e).
Qed.

Lemma queries_snoc2 t e1 e2 :
  is_find e1 = false → is_find e2 = false → queries (t ++ [e1; e2]) = queries t.
Proof.
  intros H1 H2. change (t ++ [e1; e2]) with (t ++ [e1] ++ [e2]).
  rewrite app_assoc, !queries_snoc, H1, H2. lia.
Qed.

#[global] Instance within_budget_preorder : PreOrder within_budget.
Proof. split; unfold within_budget; intros ?; [lia|intros; lia]. Qed.

Lemma within_budget_emit e : is_find e = false → keeps within_budget (emit e).
Proof.
  intros He st r st' [= <- <-]. unfold within_budget, budget. simpl.
  rewrite queries_snoc, He. lia.
Qed.

Lemma within_budget_set_fs f : keeps within_budget (set_fs f).
Proof. intros st r st' [= <- <-]. unfold within_budget, budget. simpl. lia. Qed.

Lemma within_budget_fs_call e op :
  is_find e = false → keeps within_budget (fs_call e op).
Proof.
  intros He st r st' H. rewrite fs_call_run in H.
  destruct (op (fs st)); injection H as <- <-; unfold within_budget, budget;
    simpl; rewrite queries_snoc, He; lia.
Qed.

#[global] Hint Resolve within_budget_set_fs : keeps.
#[global] Hint Extern 1 (keeps within_budget (emit _)) =>
  (apply within_budget_emit; reflexivity) : keeps.
#[global] Hint Extern 1 (keeps within_budget (fs_call _ _)) =>
  (apply within_budget_fs_call; reflexivity) : keeps.

Section Memo.

Context (host : Host) (self : Backend).
Hypothesis Hfound : findable self.

(** A query that finds an interpreter fills the cache, and a filled cache
    is read without a query. *)
Lemma _resolved_interpreter_within_budget :
  keeps within_budget (_resolved_interpreter self).
Proof using Hfound.
  intros st r st'. unfold _resolved_interpreter, resolve.
  unfold mbind, M_bind, bind, get_cached, set_cached, emit, ret, raise.
  unfold within_budget, budget.
  destruct (cached st) as [i|] eqn:Hc; simpl.
  - intros [= <- <-]. by rewrite Hc.
  - destruct (python self) as [[|c h]|] eqn:Hp; simpl.
    + intros [= <- <-]. simpl. lia.
    + pose proof (Hfound _ Hp).
      destruct (find_interpreters (project self) (String c h)); [done|].
      intros [= <- <-]. simpl. rewrite queries_snoc. simpl. lia.
    + intros [= <- <-]. simpl. lia.
Qed.

Lemma ident_within_budget : keeps within_budget (ident self).
Proof using Hfound.
  unfold ident. keeps_auto; apply _resolved_interpreter_within_budget.
Qed.

Lemma subprocess_call_within_budget cmd :
  keeps within_budget (subprocess_call host self cmd).
Proof.
  intros st r st' H. rewrite subprocess_call_run in H.
  destruct (spawn host cmd (fs st)) as [[c|e] f']; injection H as <- <-;
    unfold within_budget, budget; simpl; by rewrite queries_snoc2.
Qed.

Lemma create_within_budget name args force in_project :
  keeps within_budget (create host self name args force in_project).
Proof using Hfound.
  pose proof _resolved_interpreter_within_budget.
  pose proof ident_within_budget.
  pose proof subprocess_call_within_budget.
  unfold create, create_location, get_location, _ensure_clean, perform_create,
    shutil_rmtree, mkdir.
  keeps_auto.
Qed.

Lemma access_within_budget a : keeps within_budget (access host self a).
Proof using Hfound.
  destruct a; simpl; keeps_auto.
  - apply ident_within_budget.
  - apply create_within_budget.
Qed.

Lemma accesses_within_budget l : ∀ st,
  within_budget st (accesses host self l st).
Proof using Hfound.
  induction l as [|a l IH]; intros st; simpl; [done|].
  etrans; [|apply IH]. eapply access_within_budget. apply surjective_pairing.
Qed.

End Memo.

(** C4, on a hint nothing matches: the finder has no interpreter for
    ["2.6"]; each access to [ident] raises, stores nothing, and the next
    one asks the finder again. *)
Lemma resolver_queried_twice_counterexample :
  Sample.finder "2.6" = []
  ∧ trace (accesses Sample.good_host Sample.venv_unknown [GetIdent; GetIdent]
                    (Sample.fresh Sample.fs_bare)) =
      [EvFindInterpreters "2.6"; EvFindInterpreters "2.6"]
  ∧ queries (trace (accesses Sample.good_host Sample.venv_unknown
                             [GetIdent; GetIdent]
                             (Sample.fresh Sample.fs_bare))) = 2.
Proof. vm_compute. done. Qed.

(** C4, amended: for every backend instance whose hint, if it has one, the
    finder has a match for, any sequence of accesses to [ident] and
    [create] on that instance asks the finder at most once. *)
Theorem resolver_queried_at_most_once host self l st :
  findable self →
  cached st = None →
  (queries (trace (accesses host self l st)) ≤ queries (trace st) + 1)%nat.
Proof.
  intros Hfound Hfresh.
  pose proof (accesses_within_budget host self Hfound l st) as H.
  unfold within_budget, budget in H. rewrite Hfresh in H.
  destruct (cached (accesses host self l st)); lia.
Qed.

(** On the sample project: four accesses, a failing tool, one query. *)
Lemma resolver_queried_at_most_once_witness :
  (queries (trace (accesses Sample.bad_host Sample.virtualenv39
                    [GetIdent; CallCreate None [] true false; GetIdent;
                     CallCreate (Some "again") ["--copies"] false true]
                    (Sample.fresh Sample.fs_taken))) ≤ 0 + 1)%nat.
Proof.
  apply (resolver_queried_at_most_once
           Sample.bad_host Sample.virtualenv39
           [GetIdent; CallCreate None [] true false; GetIdent;
            CallCreate (Some "again") ["--copies"] false true]
           (Sample.fresh Sample.fs_taken)).
  - intros hint [= <-]. vm_compute. discriminate.
  - reflexivity.
Defined.

(** *** The course of [create] *)

(** A run of [create] either stops with a raise before any command, or
    it finds the location, gets through the clean check, asks at most for
    the interpreter and then runs one command, on whose result its own
    result depends. *)
Lemma create_inv host self name args force in_project st r st' :
  create host self name args force in_project st = (r, st') →
  ((∃ e, r = Raise e) ∧ appends (λ e, negb (is_check_call e)) st st')
  ∨ (∃ location st1 st2 s cmd rp,
       create_location self name in_project st = (Return location, st1)
       ∧ _ensure_clean self location force st1 = (Return tt, st2)
       ∧ appends is_find st2 s ∧ fs s = fs st2
       ∧ subprocess_call host self cmd s = (rp, st')
       ∧ r = match rp with
             | Return _ => Return location
             | Raise e => Raise e
             end).
Proof.
  unfold create.
  intros [(location & st1 & Hloc & H)|(e & Hloc & ->)]%bind_inv.
  2:{ left. split; [by eexists|].
      eapply appends_weaken; [|by eapply create_location_appends].
      by intros []. }
  assert (appends (λ e, negb (is_check_call e)) st st1) as H1.
  { eapply appends_weaken; [|by eapply create_location_appends].
    by intros []. }
  apply bind_inv in H as [([] & st2 & Hclean & H)|(e & Hclean & ->)].
  2:{ left. split; [by eexists|]. etrans; [exact H1|].
      eapply appends_weaken; [|by eapply _ensure_clean_appends].
      by intros []. }
  assert (appends (λ e, negb (is_check_call e)) st st2) as H2.
  { etrans; [exact H1|].
    eapply appends_weaken; [|by eapply _ensure_clean_appends].
    by intros []. }
  assert (∃ rp, perform_create host self location args st2 = (rp, st')
                ∧ r = match rp with
                      | Return _ => Return location
                      | Raise e => Raise e
                      end) as (rp & Hp & ->).
  { apply bind_inv in H as [([] & st3 & Hp & [= <- <-])|(e & Hp & ->)];
      by eexists. }
  apply perform_create_inv in Hp as [(e & -> & Ha & _)|(s & cmd & Ha & Hf & Hc)].
  - left. split; [by eexists|]. etrans; [exact H2|].
    eapply appends_weaken; [|exact Ha]. by intros [].
  - right. by exists location, st1, st2, s, cmd, rp.
Qed.

(** C5: for every backend, when the command [create] runs exits with a
    return code other than 0, [create] raises [VirtualenvCreateError]
    wrapping the [CalledProcessError]; the file system is left as the
    failed command left it, and where [create] had removed a location
    before, the command started from a file system with nothing at or
    below that location: nothing puts the old contents back. *)
Theorem create_wraps_process_failure
    host self name args force in_project st r st' evs cmd c :
  create host self name args force in_project st = (r, st') →
  trace st' = trace st ++ evs →
  EvCheckCall cmd (Exited c) ∈ evs →
  c ≠ 0%Z →
  r = Raise (VirtualenvCreateError (Wrapped (mkCalledProcessError c cmd)))
  ∧ ∃ f, spawn host cmd f = (Exited c, fs st')
      ∧ ∀ location, EvRmtree location ∈ evs →
          ∀ q : Path, location `suffix_of` q → f !! q = None.
Proof.
  intros Hcreate Ht Hev Hc.
  apply create_inv in Hcreate
    as [[_ Ha]|(location & st1 & st2 & s & cmd' & rp & Hloc & Hclean & Hfind
                & Hfs & Hcall & ->)].
  { by pose proof (appends_elem _ _ _ _ _ Ha Ht Hev). }
  pose proof (create_location_appends self name in_project _ _ _ Hloc) as HA.
  pose proof (_ensure_clean_appends self location force _ _ _ Hclean) as HB.
  apply appends_elems in HA as (evsA & HtA & HeA).
  apply appends_elems in HB as (evsB & HtB & HeB).
  apply appends_elems in Hfind as (evsC & HtC & HeC).
  rewrite subprocess_call_run in Hcall.
  destruct (spawn host cmd' (fs s)) as [outcome f'] eqn:Hspawn.
  assert (trace st' = trace s ++
            [EvEcho (RunCommand cmd') false DETAIL; EvCheckCall cmd' outcome])
    as HtD by (by destruct outcome; injection Hcall as <- <-).
  rewrite HtC, HtB, HtA, <- !app_assoc in HtD. rewrite HtD in Ht.
  apply app_inv_head in Ht as <-.
  assert (cmd' = cmd ∧ outcome = Exited c) as [-> ->].
  { rewrite !elem_of_app in Hev.
    destruct Hev as [Hev%HeA|[Hev%HeB|[Hev%HeC|Hev]]]; try done.
    apply elem_of_cons in Hev as [?|Hev]; [done|].
    by apply list_elem_of_singleton in Hev as [= <- <-]. }
  apply Z.eqb_neq in Hc. rewrite Hc in Hcall. injection Hcall as <- <-.
  split; [done|]. exists (fs s). split; [done|].
  intros p Hp q Hq. rewrite Hfs.
  eapply (_ensure_clean_Return_rmtree self location force st1 st2 evsB p);
    try done.
  rewrite !elem_of_app in Hp.
  destruct Hp as [Hp%HeA|[Hp|[Hp%HeC|Hp]]]; try done.
  apply elem_of_cons in Hp as [?|Hp]; [done|].
  by apply list_elem_of_singleton in Hp.
Qed.

(** On the sample project, with a tool that exits with 1. *)
Lemma create_wraps_process_failure_witness :
  (create Sample.bad_host Sample.venv39 None [] true false
          (Sample.fresh Sample.fs_taken)).1 =
    Raise (VirtualenvCreateError
             (Wrapped (mkCalledProcessError 1
                ["/usr/bin/python3.9"; "-m"; "venv"; "/envs/proj-cpython-3.9"]))).
Proof.
  refine (proj1 (create_wraps_process_failure
    Sample.bad_host Sample.venv39 None [] true false
    (Sample.fresh Sample.fs_taken) _
    (create Sample.bad_host Sample.venv39 None [] true false
            (Sample.fresh Sample.fs_taken)).2
    (trace (create Sample.bad_host Sample.venv39 None [] true false
                   (Sample.fresh Sample.fs_taken)).2)
    ["/usr/bin/python3.9"; "-m"; "venv"; "/envs/proj-cpython-3.9"] 1%Z
    _ _ _ _)).
  - apply surjective_pairing.
  - reflexivity.
  - vm_compute. do 4 apply list_elem_of_further. apply list_elem_of_here.
  - discriminate.
Defined.

(** C6, on an empty hint: the instance was given the hint [""]; its
    [ident] is the identifier of the project's interpreter, not the hint. *)
Lemma conda_ident_empty_hint_counterexample :
  kind Sample.conda_empty_hint = CondaBackend
  ∧ python Sample.conda_empty_hint = Some ""
  ∧ ident Sample.conda_empty_hint (Sample.fresh Sample.fs_bare) =
      (Return "cpython-3.9", mkState (Some Sample.py39) Sample.fs_bare []).
Proof. vm_compute. done. Qed.

(** C6, amended: for the conda backend, a hint that is not the empty
    string is the [ident], as it is, and nothing is resolved or asked for
    it; without a hint, or with the empty one, the [ident] is the
    identifier of the resolved interpreter. *)
Theorem conda_ident_is_hint self st :
  kind self = CondaBackend →
  (∀ hint, python self = Some hint → hint ≠ "" →
     ident self st = (Return hint, st))
  ∧ (python self = None ∨ python self = Some "" →
     ∃ i st',
       _resolved_interpreter self st = (Return i, st')
       ∧ ident self st = (Return (identifier i), st')
       ∧ trace st' = trace st).
Proof.
  intros Hkind. unfold ident. rewrite Hkind. split.
  - intros hint -> Hne. by destruct hint.
  - unfold _resolved_interpreter, resolve.
    unfold mbind, M_bind, bind, get_cached, set_cached, ret.
    intros [->| ->]; destruct (cached st); simpl; by eexists _, _.
Qed.

(** The hint ["3.11"]. *)
Lemma conda_ident_is_hint_witness :
  ident Sample.conda311 (Sample.fresh Sample.fs_bare) =
    (Return "3.11", Sample.fresh Sample.fs_bare).
Proof.
  apply (proj1 (conda_ident_is_hint Sample.conda311
                  (Sample.fresh Sample.fs_bare) eq_refl) "3.11").
  - reflexivity.
  - discriminate.
Defined.

(** C7: the venv backend runs exactly
    [<executable of the resolved interpreter> -m venv <location>] followed
    by the extra arguments as they are. *)
Theorem venv_command host self location args st i st1 :
  kind self = VenvBackend →
  _resolved_interpreter self st = (Return i, st1) →
  ∃ outcome f',
    spawn host ([executable i; "-m"; "venv"; str location] ++ args) (fs st) =
      (outcome, f')
    ∧ perform_create host self location args st =
        subprocess_call host self
          ([executable i; "-m"; "venv"; str location] ++ args) st1
    ∧ trace (perform_create host self location args st).2 =
        trace st1 ++
        [EvEcho (RunCommand ([executable i; "-m"; "venv"; str location] ++ args))
                false DETAIL;
         EvCheckCall ([executable i; "-m"; "venv"; str location] ++ args)
                     outcome].
Proof.
  intros Hkind Hi.
  pose proof (_resolved_interpreter_same_fs self _ _ _ Hi) as Hfs.
  set (cmd := [executable i; "-m"; "venv"; str location] ++ args).
  destruct (spawn host cmd (fs st)) as [outcome f'] eqn:Hspawn.
  exists outcome, f'. split; [done|].
  assert (perform_create host self location args st =
            subprocess_call host self cmd st1) as ->.
  { unfold perform_create. rewrite Hkind.
    by rewrite (bind_Return _ _ _ _ _ Hi). }
  split; [done|]. rewrite subprocess_call_run, Hfs, Hspawn.
  by destruct outcome.
Qed.

(** On the sample project. *)
Lemma venv_command_witness :
  trace (perform_create Sample.good_host Sample.venv39 Sample.target
           ["--copies"] (Sample.fresh Sample.fs_bare)).2 =
    [EvFindInterpreters "3.9";
     EvEcho (RunCommand ["/usr/bin/python3.9"; "-m"; "venv";
                         "/envs/proj-cpython-3.9"; "--copies"]) false DETAIL;
     EvCheckCall ["/usr/bin/python3.9"; "-m"; "venv";
                  "/envs/proj-cpython-3.9"; "--copies"] (Exited 0)].
Proof.
  destruct (venv_command Sample.good_host Sample.venv39 Sample.target
              ["--copies"] (Sample.fresh Sample.fs_bare) Sample.py39
              (mkState (Some Sample.py39) Sample.fs_bare
                       [EvFindInterpreters "3.9"]))
    as (outcome & f' & Hspawn & _ & Ht).
  - reflexivity.
  - vm_compute. reflexivity.
  - rewrite Ht. injection Hspawn as <- _. reflexivity.
Defined.

(** C8: the virtualenv backend runs exactly
    [<sys.executable> -m virtualenv <location> -p <executable of the
    resolved interpreter>] followed by the extra arguments as they are,
    whichever interpreter was resolved. *)
Theorem virtualenv_command host self location args st i st1 :
  kind self = VirtualenvBackend →
  _resolved_interpreter self st = (Return i, st1) →
  ∃ outcome f',
    spawn host ([sys_executable host; "-m"; "virtualenv"; str location;
                 "-p"; executable i] ++ args) (fs st) = (outcome, f')
    ∧ perform_create host self location args st =
        subprocess_call host self
          ([sys_executable host; "-m"; "virtualenv"; str location;
            "-p"; executable i] ++ args) st1
    ∧ trace (perform_create host self location args st).2 =
        trace st1 ++
        [EvEcho (RunCommand ([sys_executable host; "-m"; "virtualenv";
                              str location; "-p"; executable i] ++ args))
                false DETAIL;
         EvCheckCall ([sys_executable host; "-m"; "virtualenv"; str location;
                       "-p"; executable i] ++ args) outcome].
Proof.
  intros Hkind Hi.
  pose proof (_resolved_interpreter_same_fs self _ _ _ Hi) as Hfs.
  set (cmd := [sys_executable host; "-m"; "virtualenv"; str location;
               "-p"; executable i] ++ args).
  destruct (spawn host cmd (fs st)) as [outcome f'] eqn:Hspawn.
  exists outcome, f'. split; [done|].
  assert (perform_create host self location args st =
            subprocess_call host self cmd st1) as ->.
  { unfold perform_create. rewrite Hkind.
    by rewrite (bind_Return _ _ _ _ _ Hi). }
  split; [done|]. rewrite subprocess_call_run, Hfs, Hspawn.
  by destruct outcome.
Qed.

(** On the sample project. *)
Lemma virtualenv_command_witness :
  trace (perform_create Sample.good_host Sample.virtualenv39 Sample.target
           ["--copies"] (Sample.fresh Sample.fs_bare)).2 =
    [EvFindInterpreters "3.9";
     EvEcho (RunCommand ["/opt/pdm/bin/python"; "-m"; "virtualenv";
                         "/envs/proj-cpython-3.9"; "-p"; "/usr/bin/python3.9";
                         "--copies"]) false DETAIL;
     EvCheckCall ["/opt/pdm/bin/python"; "-m"; "virtualenv";
                  "/envs/proj-cpython-3.9"; "-p"; "/usr/bin/python3.9";
                  "--copies"] (Exited 0)].
Proof.
  destruct (virtualenv_command Sample.good_host Sample.virtualenv39
              Sample.target ["--copies"] (Sample.fresh Sample.fs_bare)
              Sample.py39
              (mkState (Some Sample.py39) Sample.fs_bare
                       [EvFindInterpreters "3.9"]))
    as (outcome & f' & Hspawn & _ & Ht).
  - reflexivity.
  - vm_compute. reflexivity.
  - rewrite Ht. injection Hspawn as <- _. reflexivity.
Defined.

(** *** Where the environment goes *)

(** What [ident] returns depends on the state through the cached
    interpreter only. *)
Lemma ident_result_cached self s s' :
  cached s = cached s' → (ident self s).1 = (ident self s').1.
Proof.
  intros Hc. unfold ident, _resolved_interpreter, resolve.
  unfold mbind, M_bind, bind, get_cached, set_cached, emit, ret, raise.
  destruct (kind self), (python self) as [[|c h]|]; simpl; rewrite ?Hc;
    destruct (cached s'); simpl; try done;
    by destruct (find_interpreters (project self) (String c h)).
Qed.

Lemma mkdir_same_cached p : keeps same_cached (mkdir p).
Proof.
  intros st r st' H. unfold mkdir in H. rewrite fs_call_run in H.
  by destruct (mkdir_parents_exist_ok p (fs st)); injection H as <- <-.
Qed.

(** The name of the environment under the parent directory: the name
    given, unless it is missing or empty, and the [ident] then. *)
Lemma name_or_ident_Return self (name : option string) s n s' :
  match name with
  | Some (String _ _ as x) => ret x
  | _ => ident self
  end s = (Return n, s') →
  (if truthy name then name = Some n else (ident self s).1 = Return n)
  ∧ fs s' = fs s.
Proof.
  destruct name as [[|c x]|]; simpl.
  - intros H. split; [by rewrite H|]. by eapply ident_same_fs.
  - by intros [= <- <-].
  - intros H. split; [by rewrite H|]. by eapply ident_same_fs.
Qed.

Lemma get_location_Return self name st location st1 :
  get_location self name st = (Return location, st1) →
  (∃ n, location = joinpath (venv_location (project self))
                            (get_venv_prefix (project self) +:+ n)
        ∧ if truthy name then name = Some n else (ident self st).1 = Return n)
  ∧ is_dir (fs st1) (venv_location (project self)) = true
  ∧ grows (venv_location (project self)) (fs st) (fs st1)
  ∧ (is_dir (fs st) (venv_location (project self)) = true → fs st1 = fs st).
Proof.
  intros H.
  pose proof (get_location_fs_grows self name _ _ _ H) as Hg.
  pose proof (λ Hd, create_location_same_fs self name false st _ st1
                      (or_intror Hd) H) as Hsame.
  rewrite get_location_run in H.
  apply bind_inv in H as [([] & s & Hmk & H)|(? & _ & [=])].
  apply bind_inv in H as [(n & s' & Hn & [= <- <-])|(? & _ & [=])].
  apply name_or_ident_Return in Hn as [Hn Hfs].
  assert (cached s = cached st ∧ is_dir (fs s) (venv_location (project self))
                                 = true) as [Hc Hd].
  { destruct (is_dir (fs st) (venv_location (project self))) eqn:Hd; simpl in Hmk.
    - by injection Hmk as <-.
    - split; [by eapply mkdir_same_cached|by eapply mkdir_Return]. }
  split; [|rewrite Hfs at 1; done].
  exists n. split; [done|]. destruct (truthy name); [done|].
  by rewrite <- (ident_result_cached self s st Hc).
Qed.

(** Where the parent directory can be made and the name is settled,
    [get_location] returns. *)
Lemma get_location_makeable self name st n :
  makeable (fs st) (venv_location (project self)) →
  (if truthy name then name = Some n else (ident self st).1 = Return n) →
  ∃ st1, get_location self name st =
           (Return (joinpath (venv_location (project self))
                             (get_venv_prefix (project self) +:+ n)), st1).
Proof.
  intros Hm Hn. rewrite get_location_run.
  assert (∃ s, (if negb (is_dir (fs st) (venv_location (project self)))
                then mkdir (venv_location (project self)) else ret tt) st =
                 (Return tt, s) ∧ cached s = cached st) as (s & Hs & Hc).
  { destruct (is_dir (fs st) (venv_location (project self))); simpl.
    - by eexists.
    - unfold mkdir. rewrite fs_call_run.
      destruct (mkdir_parents_exist_ok_makeable _ _ Hm) as [f' ->].
      by eexists. }
  rewrite (bind_Return _ _ _ _ _ Hs).
  destruct name as [[|c x]|]; simpl in Hn.
  - rewrite <- (ident_result_cached self s st Hc) in Hn.
    destruct (ident self s) as [r s'] eqn:Hi. simpl in Hn. subst r.
    rewrite (bind_Return _ _ _ _ _ Hi). by eexists.
  - injection Hn as <-. by eexists.
  - rewrite <- (ident_result_cached self s st Hc) in Hn.
    destruct (ident self s) as [r s'] eqn:Hi. simpl in Hn. subst r.
    rewrite (bind_Return _ _ _ _ _ Hi). by eexists.
Qed.

(** C9, on an empty name: the name [""] is given, and the location is
    named by the [ident], not by the prefix followed by the name. *)
Lemma create_empty_name_counterexample :
  (create Sample.good_host Sample.venv39 (Some "") [] false false
          (Sample.fresh Sample.fs_bare)).1 =
    Return ["proj-cpython-3.9"; "envs"]
  ∧ joinpath (venv_location Sample.proj)
             (get_venv_prefix Sample.proj +:+ "") = ["proj-"; "envs"].
Proof. vm_compute. done. Qed.

(** C9, amended: for every backend, the target location [create] works
    on is the project root joined with [".venv"] when [in_project] is set,
    and otherwise the configured parent directory joined with the prefix
    followed by the name given, if one is given and it is not empty, and
    by the [ident] otherwise; in the second case the parent directory is a
    directory afterwards, made together with the missing directories above
    it where it was not one, with every entry that existed kept as it was;
    this happens whenever the parent directory can be made and the name
    or [ident] is settled; and a [create] that returns returns exactly
    this location. *)
Theorem create_returns_location host self name args force in_project st :
  (∀ location st1,
     create_location self name in_project st = (Return location, st1) →
     if in_project then
       location = joinpath (root (project self)) ".venv" ∧ st1 = st
     else
       (∃ n, location = joinpath (venv_location (project self))
                                 (get_venv_prefix (project self) +:+ n)
             ∧ if truthy name then name = Some n
               else (ident self st).1 = Return n)
       ∧ is_dir (fs st1) (venv_location (project self)) = true
       ∧ grows (venv_location (project self)) (fs st) (fs st1)
       ∧ (is_dir (fs st) (venv_location (project self)) = true →
          fs st1 = fs st))
  ∧ (∀ n, in_project = false →
       makeable (fs st) (venv_location (project self)) →
       (if truthy name then name = Some n else (ident self st).1 = Return n) →
       ∃ st1, create_location self name in_project st =
                (Return (joinpath (venv_location (project self))
                                  (get_venv_prefix (project self) +:+ n)),
                 st1))
  ∧ (∀ location st',
       create host self name args force in_project st = (Return location, st') →
       ∃ st1, create_location self name in_project st = (Return location, st1)).
Proof.
  split; [|split].
  - intros location st1. unfold create_location. destruct in_project.
    + by intros [= <- <-].
    + apply get_location_Return.
  - intros n -> Hm Hn. by apply get_location_makeable.
  - intros location st'
      [[[e [=]] _]|(l & st1 & st2 & s & cmd & rp & Hloc & _ & _ & _ & _ & Hr)]
      %create_inv.
    exists st1. destruct rp; [done|]. by injection Hr as ->.
Qed.

(** On the sample project: the parent directory is made, the name is given. *)
Lemma create_returns_location_witness :
  create Sample.good_host Sample.conda311 (Some "tools") ["numpy"] false false
         (Sample.fresh Sample.fs_bare) =
    (Return ["proj-tools"; "envs"],
     mkState None (<[ ["envs"] := Dir ]> Sample.fs_bare)
       [EvMkdir ["envs"];
        EvEcho (RunCommand ["conda"; "create"; "--yes"; "--prefix";
                            "/envs/proj-tools"; "pip"; "python=3.11"; "numpy"])
               false DETAIL;
        EvCheckCall ["conda"; "create"; "--yes"; "--prefix";
                     "/envs/proj-tools"; "pip"; "python=3.11"; "numpy"]
                    (Exited 0)])
  ∧ is_dir (<[ ["envs"] := Dir ]> Sample.fs_bare) ["envs"] = true.
Proof.
  destruct (create_returns_location
              Sample.good_host Sample.conda311 (Some "tools") ["numpy"] false
              false (Sample.fresh Sample.fs_bare))
    as (Hshape & Hmade & Hret).
  destruct (Hmade "tools" eq_refl) as [st1 Hloc].
  - split; [reflexivity|]. intros q c [[|a [|b k]] Hk]; simpl in Hk.
    + subst q. vm_compute. discriminate.
    + injection Hk as _ <-. vm_compute. discriminate.
    + discriminate Hk.
  - reflexivity.
  - destruct (Hshape _ _ Hloc) as (_ & Hd & _).
    split; [vm_compute; reflexivity|].
    assert (st1 = mkState None (<[ ["envs"] := Dir ]> Sample.fs_bare)
                          [EvMkdir ["envs"]]) as ->.
    { vm_compute in Hloc. by injection Hloc as <-. }
    exact Hd.
Defined.

(** Where the parent directory can be made and neither a name nor an
    [ident] is to be had, [get_location] raises what [ident] raises. *)
Lemma get_location_ident_raises self name st e :
  makeable (fs st) (venv_location (project self)) →
  truthy name = false →
  (ident self st).1 = Raise e →
  ∃ st1, get_location self name st = (Raise e, st1).
Proof.
  intros Hm Hname He. rewrite get_location_run.
  assert (∃ s, (if negb (is_dir (fs st) (venv_location (project self)))
                then mkdir (venv_location (project self)) else ret tt) st =
                 (Return tt, s) ∧ cached s = cached st) as (s & Hs & Hc).
  { destruct (is_dir (fs st) (venv_location (project self))); simpl.
    - by eexists.
    - unfold mkdir. rewrite fs_call_run.
      destruct (mkdir_parents_exist_ok_makeable _ _ Hm) as [f' ->].
      by eexists. }
  rewrite (bind_Return _ _ _ _ _ Hs).
  rewrite <- (ident_result_cached self s st Hc) in He.
  destruct (ident self s) as [r s'] eqn:Hi. simpl in He. subst r.
  exists s'. apply bind_Raise. by destruct name as [[|c x]|].
Qed.

(** C10: for every backend, [create] with the empty string as name is
    [create] without a name, and the location it works on is the one named
    by the [ident]: that is the location a [create] called with the name
    [""] returns; that is the location it refuses when something is there
    and [force] is off; and where the instance has no [ident], because its
    interpreter cannot be found, [create] called with the name [""] raises
    what [ident] raises instead of going on with the empty name. *)
Theorem create_empty_name_is_no_name host self args force in_project st :
  create host self (Some "") args force in_project st =
    create host self None args force in_project st
  ∧ (∀ location st',
       create host self (Some "") args force false st = (Return location, st') →
       ∃ n, (ident self st).1 = Return n
            ∧ location = joinpath (venv_location (project self))
                                  (get_venv_prefix (project self) +:+ n))
  ∧ (∀ n,
       (ident self st).1 = Return n →
       makeable (fs st) (venv_location (project self)) →
       exists_ (fs st) (joinpath (venv_location (project self))
                                 (get_venv_prefix (project self) +:+ n)) = true →
       ∃ st1,
         create host self (Some "") args false false st =
           (Raise (not_empty_error
                     (joinpath (venv_location (project self))
                               (get_venv_prefix (project self) +:+ n))),
            st1))
  ∧ (∀ e,
       (ident self st).1 = Raise e →
       makeable (fs st) (venv_location (project self)) →
       ∃ st1, create host self (Some "") args force false st = (Raise e, st1)).
Proof.
  split; [reflexivity|]. split; [|split].
  - intros location st'
      [[[e [=]] _]|(l & st1 & st2 & s & cmd & rp & Hloc & _ & _ & _ & _ & Hr)]
      %create_inv.
    destruct rp; [done|]. injection Hr as ->.
    apply get_location_Return in Hloc as ((n & -> & Hn) & _). by exists n.
  - intros n Hn Hm Hex.
    destruct (get_location_makeable self (Some "") st n Hm Hn) as [st1 Hloc].
    exists st1. unfold create.
    rewrite (bind_Return _ _ st _ st1) by exact Hloc.
    apply bind_Raise, _ensure_clean_refuses.
    apply exists_lookup in Hex as [m Hq]. apply exists_lookup. exists m.
    by eapply (create_location_keeps_entries self (Some "") false).
  - intros e He Hm.
    destruct (get_location_ident_raises self (Some "") st e Hm eq_refl He)
      as [st1 Hloc].
    exists st1. unfold create. by apply bind_Raise.
Qed.

(** On the sample project: with the name [""] the directory refused is the
    one named by the interpreter's identifier. *)
Lemma create_empty_name_is_no_name_witness :
  ∃ st1,
    create Sample.good_host Sample.venv39 (Some "") ["--copies"] false false
           (Sample.fresh Sample.fs_taken) =
      (Raise (not_empty_error ["proj-cpython-3.9"; "envs"]), st1).
Proof.
  destruct (create_empty_name_is_no_name
              Sample.good_host Sample.venv39 ["--copies"] false false
              (Sample.fresh Sample.fs_taken))
    as (_ & _ & Htaken & _).
  apply (Htaken "cpython-3.9").
  - vm_compute. reflexivity.
  - split; [vm_compute; reflexivity|].
    intros q c [[|a [|b k]] Hk]; simpl in Hk.
    + subst q. vm_compute. discriminate.
    + injection Hk as _ <-. vm_compute. discriminate.
    + discriminate Hk.
  - vm_compute. reflexivity.
Defined.

(** ** Further properties *)

(** *** The one command of [create] *)

(** Once the clean check has returned, nothing is at the location. *)
Lemma _ensure_clean_Return_absent self location force st st' :
  _ensure_clean self location force st = (Return tt, st') →
  exists_ (fs st') location = false.
Proof.
  intros H. destruct (exists_ (fs st) location) eqn:He.
  - destruct force.
    + rewrite _ensure_clean_force in H by done.
      destruct (rmtree (fs st) location) as [err|f'] eqn:Hr; [done|].
      injection H as <-. simpl.
      apply rmtree_inr in Hr as (_ & _ & Hgone & _).
      unfold exists_. by rewrite (Hgone location).
    + by rewrite _ensure_clean_refuses in H.
  - rewrite _ensure_clean_absent in H by done. by injection H as <-.
Qed.

(** A run of [create], read off its events: no command at all and a
    raise, or the way to the one command, the command, and the result
    that follows from how the command ended. *)
Lemma create_command_inv host self name args force in_project st r st' evs :
  create host self name args force in_project st = (r, st') →
  trace st' = trace st ++ evs →
  ((∃ e, r = Raise e) ∧ ∀ e, e ∈ evs → is_check_call e = false)
  ∨ ∃ location st1 st2 cmd outcome f' pre,
      create_location self name in_project st = (Return location, st1)
      ∧ _ensure_clean self location force st1 = (Return tt, st2)
      ∧ spawn host cmd (fs st2) = (outcome, f')
      ∧ evs = pre ++ [EvEcho (RunCommand cmd) false DETAIL;
                      EvCheckCall cmd outcome]
      ∧ (∀ e, e ∈ pre → is_check_call e = false)
      ∧ fs st' = match outcome with
                 | Exited _ => f'
                 | NotStarted _ => fs st2
                 end
      ∧ r = match outcome with
            | NotStarted e => Raise (OSError e)
            | Exited c =>
                if Z.eqb c 0 then Return location
                else Raise (VirtualenvCreateError
                              (Wrapped (mkCalledProcessError c cmd)))
            end.
Proof.
  intros Hcreate Ht.
  apply create_inv in Hcreate
    as [[Hr Ha]|(location & st1 & st2 & s & cmd & rp & Hloc & Hclean & Hfind
                 & Hfs & Hcall & ->)].
  { left. split; [done|]. intros e He.
    pose proof (appends_elem _ _ _ _ _ Ha Ht He) as Hn. by destruct e. }
  right.
  pose proof (create_location_appends self name in_project _ _ _ Hloc) as HA.
  pose proof (_ensure_clean_appends self location force _ _ _ Hclean) as HB.
  apply appends_elems in HA as (evsA & HtA & HeA).
  apply appends_elems in HB as (evsB & HtB & HeB).
  apply appends_elems in Hfind as (evsC & HtC & HeC).
  rewrite subprocess_call_run, Hfs in Hcall.
  destruct (spawn host cmd (fs st2)) as [outcome f'] eqn:Hspawn.
  exists location, st1, st2, cmd, outcome, f', (evsA ++ evsB ++ evsC).
  assert (trace st' = trace s ++
            [EvEcho (RunCommand cmd) false DETAIL; EvCheckCall cmd outcome])
    as HtD by (by destruct outcome; injection Hcall as <- <-).
  rewrite HtC, HtB, HtA, <- !app_assoc in HtD. rewrite HtD in Ht.
  apply app_inv_head in Ht as <-.
  repeat (split; [by rewrite <- ?app_assoc|]). split; [|split].
  - intros e. rewrite !elem_of_app.
    intros [He%HeA|[He%HeB|He%HeC]]; by destruct e.
  - by destruct outcome; injection Hcall as <- <-.
  - destruct outcome as [c|e]; injection Hcall as <- <-; [|done].
    by destruct (Z.eqb c 0).
Qed.

(** X1: the conda backend, given no [python=] argument, runs exactly
    [conda create --yes --prefix <location> pip python=<version>] followed
    by the extra arguments; the version is the hint as it is when there is
    one, with nothing resolved for it, and [<major>.<minor>] of the
    resolved interpreter otherwise. *)
Theorem conda_command host self location args st :
  kind self = CondaBackend →
  existsb (String.prefix "python=") args = false →
  (∀ hint, python self = Some hint → hint ≠ "" →
     perform_create host self location args st =
       subprocess_call host self
         (["conda"; "create"; "--yes"; "--prefix"; str location; "pip";
           "python=" +:+ hint] ++ args) st)
  ∧ (truthy (python self) = false →
     ∀ i st1, _resolved_interpreter self st = (Return i, st1) →
       perform_create host self location args st =
         subprocess_call host self
           (["conda"; "create"; "--yes"; "--prefix"; str location; "pip";
             "python=" +:+ str_nat (major i) +:+ "." +:+ str_nat (minor i)]
            ++ args) st1).
Proof.
  intros Hkind Hpin. unfold perform_create. rewrite Hkind, Hpin. split.
  - intros hint -> Hne. by destruct hint.
  - intros Hfalse i st1 Hi.
    destruct (python self) as [[|c h]|]; try done;
      unfold mbind, M_bind, bind; by rewrite Hi.
Qed.

(** The hint ["3.11"], and no hint with the project on Python 3.9. *)
Lemma conda_command_witness :
  trace (perform_create Sample.good_host Sample.conda311 Sample.target
           ["numpy"] (Sample.fresh Sample.fs_ready)).2 =
    [EvEcho (RunCommand ["conda"; "create"; "--yes"; "--prefix";
                         "/envs/proj-cpython-3.9"; "pip"; "python=3.11";
                         "numpy"]) false DETAIL;
     EvCheckCall ["conda"; "create"; "--yes"; "--prefix";
                  "/envs/proj-cpython-3.9"; "pip"; "python=3.11"; "numpy"]
                 (Exited 0)]
  ∧ trace (perform_create Sample.good_host Sample.conda_no_hint Sample.target
             [] (Sample.fresh Sample.fs_ready)).2 =
    [EvEcho (RunCommand ["conda"; "create"; "--yes"; "--prefix";
                         "/envs/proj-cpython-3.9"; "pip"; "python=3.9"])
            false DETAIL;
     EvCheckCall ["conda"; "create"; "--yes"; "--prefix";
                  "/envs/proj-cpython-3.9"; "pip"; "python=3.9"] (Exited 0)].
Proof.
  split.
  - rewrite (proj1 (conda_command Sample.good_host Sample.conda311
                      Sample.target ["numpy"] (Sample.fresh Sample.fs_ready)
                      eq_refl eq_refl) "3.11" eq_refl); [|discriminate].
    vm_compute. reflexivity.
  - rewrite (proj2 (conda_command Sample.good_host Sample.conda_no_hint
                      Sample.target [] (Sample.fresh Sample.fs_ready)
                      eq_refl eq_refl) eq_refl Sample.py39
                   (mkState (Some Sample.py39) Sample.fs_ready []));
      vm_compute; reflexivity.
Defined.

(** X2: [create] runs at most one command; when it runs one, the command
    line was printed at the detail level right before, and running it is
    the last thing [create] does. *)
Theorem create_runs_one_command_last
    host self name args force in_project st r st' evs :
  create host self name args force in_project st = (r, st') →
  trace st' = trace st ++ evs →
  (∀ e, e ∈ evs → is_check_call e = false)
  ∨ ∃ pre cmd outcome,
      evs = pre ++ [EvEcho (RunCommand cmd) false DETAIL;
                    EvCheckCall cmd outcome]
      ∧ ∀ e, e ∈ pre → is_check_call e = false.
Proof.
  intros Hcreate Ht.
  destruct (create_command_inv _ _ _ _ _ _ _ _ _ _ Hcreate Ht)
    as [[_ Hno]|(location & st1 & st2 & cmd & outcome & f' & pre & _ & _ & _
                 & Hevs & Hpre & _)].
  - by left.
  - right. by exists pre, cmd, outcome.
Qed.

(** On the sample project, with a tool that fails. *)
Lemma create_runs_one_command_last_witness :
  (∀ e, e ∈ trace (create Sample.bad_host Sample.venv39 None [] true false
                          (Sample.fresh Sample.fs_taken)).2 →
        is_check_call e = false)
  ∨ ∃ pre cmd outcome,
      trace (create Sample.bad_host Sample.venv39 None [] true false
                    (Sample.fresh Sample.fs_taken)).2 =
        pre ++ [EvEcho (RunCommand cmd) false DETAIL; EvCheckCall cmd outcome]
      ∧ ∀ e, e ∈ pre → is_check_call e = false.
Proof.
  apply (create_runs_one_command_last
           Sample.bad_host Sample.venv39 None [] true false
           (Sample.fresh Sample.fs_taken)
           (create Sample.bad_host Sample.venv39 None [] true false
                   (Sample.fresh Sample.fs_taken)).1
           (create Sample.bad_host Sample.venv39 None [] true false
                   (Sample.fresh Sample.fs_taken)).2).
  - apply surjective_pairing.
  - reflexivity.
Defined.

(** X3: when [create] returns, it has run its command to return code 0,
    the command was started on a file system with nothing at the location
    returned, and the file system is left as the command left it. *)
Theorem create_returns_after_command
    host self name args force in_project st location st' :
  create host self name args force in_project st = (Return location, st') →
  ∃ cmd f pre,
    spawn host cmd f = (Exited 0, fs st')
    ∧ exists_ f location = false
    ∧ trace st' = trace st ++ pre ++
        [EvEcho (RunCommand cmd) false DETAIL; EvCheckCall cmd (Exited 0)]
    ∧ ∀ e, e ∈ pre → is_check_call e = false.
Proof.
  intros Hcreate.
  pose proof (create_inv _ _ _ _ _ _ _ _ _ Hcreate) as Hinv.
  assert (∃ evs, trace st' = trace st ++ evs) as [evs Ht].
  { destruct Hinv as [[_ (evs & Ht & _)]|
      (l & st1 & st2 & s & cmd & rp & Hloc & Hclean & Hfind & _ & Hcall & _)].
    - by exists evs.
    - pose proof (create_location_appends self name in_project _ _ _ Hloc)
        as (e1 & H1 & _).
      pose proof (_ensure_clean_appends self l force _ _ _ Hclean)
        as (e2 & H2 & _).
      destruct Hfind as (e3 & H3 & _).
      pose proof (subprocess_call_appends host self cmd _ _ _ Hcall)
        as (e4 & H4 & _).
      exists (e1 ++ e2 ++ e3 ++ e4).
      by rewrite H4, H3, H2, H1, <- !app_assoc. }
  destruct (create_command_inv _ _ _ _ _ _ _ _ _ _ Hcreate Ht)
    as [[[e [=]] _]|(l & st1 & st2 & cmd & outcome & f' & pre & Hloc & Hclean
                     & Hspawn & -> & Hpre & Hfs & Hr)].
  destruct outcome as [c|e]; [|done].
  destruct (Z.eqb c 0) eqn:Hc; [|done].
  apply Z.eqb_eq in Hc as ->. injection Hr as ->.
  exists cmd, (fs st2), pre. rewrite Hfs. repeat split; try done.
  by eapply _ensure_clean_Return_absent.
Qed.

(** On the sample project: the taken directory is removed first. *)
Lemma create_returns_after_command_witness :
  ∃ cmd f pre,
    spawn Sample.good_host cmd f =
      (Exited 0, fs (create Sample.good_host Sample.venv39 None [] true false
                            (Sample.fresh Sample.fs_taken)).2)
    ∧ exists_ f Sample.target = false
    ∧ trace (create Sample.good_host Sample.venv39 None [] true false
                    (Sample.fresh Sample.fs_taken)).2 =
        trace (Sample.fresh Sample.fs_taken) ++ pre ++
        [EvEcho (RunCommand cmd) false DETAIL; EvCheckCall cmd (Exited 0)]
    ∧ ∀ e, e ∈ pre → is_check_call e = false.
Proof.
  apply (create_returns_after_command
           Sample.good_host Sample.venv39 None [] true false
           (Sample.fresh Sample.fs_taken) Sample.target).
  vm_compute. reflexivity.
Defined.

(** X4: when the command cannot be started at all, the [OSError] of the
    start leaves [create] as it is, not wrapped in a
    [VirtualenvCreateError], and the file system is the one the start was
    tried on. *)
Theorem create_passes_on_start_failure
    host self name args force in_project st r st' evs cmd e :
  create host self name args force in_project st = (r, st') →
  trace st' = trace st ++ evs →
  EvCheckCall cmd (NotStarted e) ∈ evs →
  r = Raise (OSError e)
  ∧ ∃ f', spawn host cmd (fs st') = (NotStarted e, f').
Proof.
  intros Hcreate Ht Hev.
  destruct (create_command_inv _ _ _ _ _ _ _ _ _ _ Hcreate Ht)
    as [[_ Hno]|(l & st1 & st2 & cmd' & outcome & f' & pre & _ & _
                 & Hspawn & -> & Hpre & Hfs & Hr)].
  { by apply Hno in Hev. }
  assert (cmd' = cmd ∧ outcome = NotStarted e) as [-> ->].
  { rewrite elem_of_app in Hev. destruct Hev as [Hev%Hpre|Hev]; [done|].
    apply elem_of_cons in Hev as [?|Hev]; [done|].
    by apply list_elem_of_singleton in Hev as [= <- <-]. }
  split; [done|]. exists f'. by rewrite Hfs.
Qed.

(** On the sample project, on a host without the tool. *)
Lemma create_passes_on_start_failure_witness :
  (create Sample.no_tool_host Sample.virtualenv39 None [] false false
          (Sample.fresh Sample.fs_ready)).1 = Raise (OSError FileNotFoundError).
Proof.
  refine (proj1 (create_passes_on_start_failure
    Sample.no_tool_host Sample.virtualenv39 None [] false false
    (Sample.fresh Sample.fs_ready) _
    (create Sample.no_tool_host Sample.virtualenv39 None [] false false
            (Sample.fresh Sample.fs_ready)).2
    (trace (create Sample.no_tool_host Sample.virtualenv39 None [] false false
                   (Sample.fresh Sample.fs_ready)).2)
    ["/opt/pdm/bin/python"; "-m"; "virtualenv"; "/envs/proj-cpython-3.9";
     "-p"; "/usr/bin/python3.9"]
    FileNotFoundError _ _ _)).
  - apply surjective_pairing.
  - reflexivity.
  - vm_compute. do 2 apply list_elem_of_further. apply list_elem_of_here.
Defined.

(** X5: on a location that is free once it has been found, [force] makes
    no difference: the clean check does nothing, prints nothing, and
    [create] with and without [force] are the same run. *)
Theorem create_force_irrelevant_when_free
    host self name args in_project st location st1 :
  create_location self name in_project st = (Return location, st1) →
  exists_ (fs st1) location = false →
  create host self name args true in_project st =
    create host self name args false in_project st
  ∧ ∀ force, create host self name args force in_project st =
      (perform_create host self location args;; ret location) st1.
Proof.
  intros Hloc Hfree.
  assert (∀ force, create host self name args force in_project st =
            (perform_create host self location args;; ret location) st1) as H.
  { intros force. unfold create. rewrite (bind_Return _ _ _ _ _ Hloc).
    by rewrite (bind_Return _ _ _ _ _
                  (_ensure_clean_absent self location force st1 Hfree)). }
  split; [|done]. by rewrite !H.
Qed.

(** On the sample project, with the parent directory in place. *)
Lemma create_force_irrelevant_when_free_witness :
  create Sample.good_host Sample.venv39 None [] true false
         (Sample.fresh Sample.fs_ready) =
    create Sample.good_host Sample.venv39 None [] false false
           (Sample.fresh Sample.fs_ready).
Proof.
  refine (proj1 (create_force_irrelevant_when_free
                   Sample.good_host Sample.venv39 None [] false
                   (Sample.fresh Sample.fs_ready) Sample.target
                   (mkState (Some Sample.py39) Sample.fs_ready
                            [EvFindInterpreters "3.9"]) _ _)).
  - vm_compute. reflexivity.
  - vm_compute. reflexivity.
Defined.

(** *** What every use of an instance keeps *)

Section Blind.

Context (R : State → State → Prop) `{!PreOrder R} (Hblind : blind R).
Context (host : Host) (self : Backend).

Lemma blind_emit e : is_find e = false → keeps R (emit e).
Proof using Hblind.
  intros He st r st' [= <- <-]. apply Hblind; simpl; [done|].
  rewrite queries_snoc, He. lia.
Qed.

Lemma blind_set_fs f : keeps R (set_fs f).
Proof using Hblind. intros st r st' [= <- <-]. by apply Hblind. Qed.

Lemma blind_fs_call e op : is_find e = false → keeps R (fs_call e op).
Proof using Hblind.
  intros He st r st' H. rewrite fs_call_run in H.
  destruct (op (fs st)); injection H as <- <-; apply Hblind; simpl;
    try done; rewrite queries_snoc, He; lia.
Qed.

Lemma blind_subprocess_call cmd : keeps R (subprocess_call host self cmd).
Proof using Hblind.
  intros st r st' H. rewrite subprocess_call_run in H.
  destruct (spawn host cmd (fs st)) as [[c|e] f']; injection H as <- <-;
    apply Hblind; simpl; try done; by rewrite queries_snoc2.
Qed.

Hypothesis Hres : resolves_within R self.

(** The reading of [_resolved_interpreter], in a branch that has one. *)
Ltac blind_resolved :=
  let Hk := fresh in let Ht := fresh in
  destruct Hres as [[Hk Ht]|?]; [exfalso|done];
  first [congruence
        |match goal with
         | E : python self = _ |- _ => rewrite E in Ht; discriminate Ht
         end].

Lemma blind_ident : keeps R (ident self).
Proof using Hblind Hres PreOrder0.
  unfold ident. keeps_auto; blind_resolved.
Qed.

Lemma blind_create name args force in_project :
  keeps R (create host self name args force in_project).
Proof using Hblind Hres PreOrder0.
  pose proof blind_ident. pose proof blind_subprocess_call.
  unfold create, create_location, get_location, _ensure_clean, perform_create,
    shutil_rmtree, mkdir.
  keeps_auto;
    solve [apply blind_emit; reflexivity
          |apply blind_fs_call; reflexivity
          |blind_resolved].
Qed.

Lemma blind_access a : keeps R (access host self a).
Proof using Hblind Hres PreOrder0.
  destruct a; simpl; keeps_auto.
  - apply blind_ident.
  - apply blind_create.
Qed.

Lemma blind_accesses l : ∀ st, R st (accesses host self l st).
Proof using Hblind Hres PreOrder0.
  induction l as [|a l IH]; intros st; simpl; [done|].
  etrans; [|apply IH]. eapply blind_access. apply surjective_pairing.
Qed.

End Blind.

#[global] Instance same_queries_preorder : PreOrder same_queries.
Proof. split; unfold same_queries; [done|congruence]. Qed.

#[global] Instance settled_preorder : PreOrder settled.
Proof.
  split.
  - by intros st i Hi.
  - intros s1 s2 s3 H12 H23 i Hi. destruct (H12 i Hi) as [H2 Hq].
    destruct (H23 i H2) as [H3 Hq']. split; [done|congruence].
Qed.

#[global] Instance stays_unresolved_preorder : PreOrder stays_unresolved.
Proof.
  split.
  - by intros st H.
  - intros s1 s2 s3 H12 H23 H. by apply H23, H12.
Qed.

Lemma same_queries_blind : blind same_queries.
Proof. by intros st st' _ Hq. Qed.

Lemma settled_blind : blind settled.
Proof. intros st st' Hc Hq i Hi. split; congruence. Qed.

Lemma stays_unresolved_blind : blind stays_unresolved.
Proof. intros st st' Hc _ Hn. congruence. Qed.

(** *** An interpreter that cannot be found *)

Lemma _resolved_interpreter_unmatched self st hint :
  python self = Some hint → hint ≠ "" →
  find_interpreters (project self) hint = [] → cached st = None →
  _resolved_interpreter self st =
    (Raise (not_found_error hint),
     mkState None (fs st) (trace st ++ [EvFindInterpreters hint])).
Proof.
  intros Hp Hne Hf Hc. unfold _resolved_interpreter, resolve.
  unfold mbind, M_bind, bind, get_cached, emit, raise. rewrite Hp.
  destruct hint as [|c h]; [done|]. simpl. rewrite Hc, Hf. simpl.
  by rewrite Hc.
Qed.

Lemma unmatched_resolves_within self :
  unmatched self → resolves_within stays_unresolved self.
Proof.
  intros (hint & Hp & Hne & Hf). right. intros st r st' H Hc.
  rewrite (_resolved_interpreter_unmatched self st hint) in H by done.
  by injection H as <- <-.
Qed.

(** The hook of the two virtualenv backends stops at the interpreter. *)
Lemma perform_create_unmatched host self location args st hint :
  kind self ≠ CondaBackend →
  python self = Some hint → hint ≠ "" →
  find_interpreters (project self) hint = [] → cached st = None →
  perform_create host self location args st =
    (Raise (not_found_error hint),
     mkState None (fs st) (trace st ++ [EvFindInterpreters hint])).
Proof.
  intros Hk Hp Hne Hf Hc. unfold perform_create.
  pose proof (_resolved_interpreter_unmatched self st hint Hp Hne Hf Hc) as H.
  destruct (kind self); try done; by rewrite (bind_Raise _ _ _ _ _ H).
Qed.

(** X6: a virtualenv or venv backend whose hint the finder has no match
    for never gets to run a command: [create] raises, the instance stays
    without a resolved interpreter, and once the location is found and the
    clean check is passed, what is raised is the error that the
    interpreter cannot be found, a forced removal notwithstanding. *)
Theorem create_without_interpreter
    host self name args force in_project st hint :
  kind self ≠ CondaBackend →
  python self = Some hint → hint ≠ "" →
  find_interpreters (project self) hint = [] →
  cached st = None →
  ∃ e st',
    create host self name args force in_project st = (Raise e, st')
    ∧ cached st' = None
    ∧ (∃ evs, trace st' = trace st ++ evs ∧
         ∀ ev, ev ∈ evs → is_check_call ev = false)
    ∧ (∀ location st1 st2,
         create_location self name in_project st = (Return location, st1) →
         _ensure_clean self location force st1 = (Return tt, st2) →
         e = not_found_error hint ∧ fs st' = fs st2).
Proof.
  intros Hk Hp Hne Hf Hc.
  assert (unmatched self) as Hun by (by exists hint).
  destruct (create host self name args force in_project st) as [r st'] eqn:H.
  pose proof (blind_create stays_unresolved stays_unresolved_blind host self
                (unmatched_resolves_within self Hun) _ _ _ _ _ _ _ H Hc)
    as Hc'.
  unfold create in H.
  destruct (create_location self name in_project st) as [[e1|location] st1]
    eqn:Hloc.
  { rewrite (bind_Raise _ _ _ _ _ Hloc) in H. injection H as <- <-.
    exists e1, st1. split; [done|]. split; [done|]. split; [|done].
    apply create_location_appends, appends_elems in Hloc as (evs & Ht & He).
    exists evs. split; [done|]. intros ev Hq%He. by destruct ev. }
  pose proof (create_location_appends self name in_project _ _ _ Hloc) as HA.
  assert (cached st1 = None) as Hc1.
  { refine (_ Hc). change (stays_unresolved st st1).
    unfold create_location in Hloc. destruct in_project.
    - by injection Hloc as <- <-.
    - revert Hloc. unfold get_location.
      pose proof (blind_ident stays_unresolved stays_unresolved_blind self
                    (unmatched_resolves_within self Hun)).
      refine ((_ : keeps stays_unresolved _) st _ st1).
      keeps_auto. apply blind_fs_call; [apply stays_unresolved_blind|done]. }
  rewrite (bind_Return _ _ _ _ _ Hloc) in H.
  destruct (_ensure_clean self location force st1) as [[e2|[]] st2] eqn:Hclean.
  { rewrite (bind_Raise _ _ _ _ _ Hclean) in H. injection H as <- <-.
    exists e2, st2. split; [done|]. split; [done|].
    split; [|intros ? ? ? [= <- <-]; by rewrite Hclean].
    pose proof (_ensure_clean_appends self location force _ _ _ Hclean) as HB.
    assert (appends (λ e, negb (is_check_call e)) st st2)
      as (evs & Ht & He)%appends_elems.
    { etrans; (eapply appends_weaken; [|eassumption]); by intros []. }
    exists evs. split; [done|]. intros ev Hq%He. by destruct ev. }
  rewrite (bind_Return _ _ _ _ _ Hclean) in H.
  assert (cached st2 = None) as Hc2.
  { rewrite (_ensure_clean_same_cached self location force _ _ _ Hclean).
    done. }
  rewrite (bind_Raise _ _ _ _ _
             (perform_create_unmatched host self location args st2 hint
                Hk Hp Hne Hf Hc2)) in H.
  injection H as <- <-. eexists _, _. split; [done|]. split; [done|].
  split.
  - pose proof (_ensure_clean_appends self location force _ _ _ Hclean) as HB.
    assert (appends (λ e, negb (is_check_call e)) st st2)
      as (evs & Ht & He)%appends_elems.
    { etrans; (eapply appends_weaken; [|eassumption]); by intros []. }
    exists (evs ++ [EvFindInterpreters hint]). simpl.
    split; [by rewrite Ht, app_assoc|].
    intros ev [Hq%He|Hq%list_elem_of_singleton]%elem_of_app.
    + by destruct ev.
    + by subst ev.
  - intros ? ? ? [= <- <-] Hcl. rewrite Hclean in Hcl. by injection Hcl as <-.
Qed.

(** On the sample project: the name is given, the taken directory is
    removed on [force], and then the interpreter is missing. *)
Lemma create_without_interpreter_witness :
  (create Sample.good_host Sample.venv_unknown (Some "cpython-3.9") [] true
          false (Sample.fresh Sample.fs_taken)).1 =
    Raise (not_found_error "2.6").
Proof.
  destruct (create_without_interpreter
              Sample.good_host Sample.venv_unknown (Some "cpython-3.9") []
              true false (Sample.fresh Sample.fs_taken) "2.6")
    as (e & st' & Hcreate & _ & _ & Hreach).
  - discriminate.
  - reflexivity.
  - discriminate.
  - reflexivity.
  - reflexivity.
  - rewrite Hcreate. simpl. f_equal.
    eapply (λ l s1 s2 H1 H2, proj1 (Hreach l s1 s2 H1 H2));
      vm_compute; reflexivity.
Defined.

(** *** Instances that never ask the finder *)

Lemma _resolved_interpreter_no_hint self :
  truthy (python self) = false → keeps same_queries (_resolved_interpreter self).
Proof.
  intros Hf st r st'. unfold _resolved_interpreter, resolve.
  unfold mbind, M_bind, bind, get_cached, set_cached, ret.
  destruct (python self) as [[|c h]|]; try done;
    by destruct (cached st); intros [= <- <-].
Qed.

Lemma never_asks_resolves_within self :
  never_asks self → resolves_within same_queries self.
Proof.
  intros [Hk|Hf].
  - destruct (truthy (python self)) eqn:Ht; [by left|].
    right. by apply _resolved_interpreter_no_hint.
  - right. by apply _resolved_interpreter_no_hint.
Qed.

(** X7: an instance without a hint, and a conda instance with or without
    one, never asks the finder, whatever is done with it: without a hint
    the project's own interpreter is taken, and conda takes its hint as
    it is. *)
Theorem finder_never_asked host self l st :
  kind self = CondaBackend ∨ truthy (python self) = false →
  queries (trace (accesses host self l st)) = queries (trace st).
Proof.
  intros Hn.
  exact (blind_accesses same_queries same_queries_blind host self
           (never_asks_resolves_within self Hn) l st).
Qed.

(** A conda instance with a hint the finder has no match for. *)
Lemma finder_never_asked_witness :
  queries (trace (accesses Sample.bad_host
                    (mkBackend CondaBackend Sample.proj (Some "2.6"))
                    [GetIdent; CallCreate None ["numpy"] true false; GetIdent]
                    (Sample.fresh Sample.fs_taken))) = 0.
Proof.
  apply (finder_never_asked Sample.bad_host
           (mkBackend CondaBackend Sample.proj (Some "2.6"))
           [GetIdent; CallCreate None ["numpy"] true false; GetIdent]
           (Sample.fresh Sample.fs_taken)).
  left. reflexivity.
Defined.

(** *** An interpreter once resolved *)

Lemma _resolved_interpreter_cached self st i :
  cached st = Some i → _resolved_interpreter self st = (Return i, st).
Proof.
  intros Hc. unfold _resolved_interpreter, mbind, M_bind, bind, get_cached.
  by rewrite Hc.
Qed.

Lemma _resolved_interpreter_settled self :
  keeps settled (_resolved_interpreter self).
Proof.
  intros st r st' H i Hc.
  rewrite (_resolved_interpreter_cached self st i Hc) in H.
  by injection H as <- <-.
Qed.

(** X8: once an instance has its interpreter, it keeps that interpreter
    through every later access, and the finder is not asked again: not
    even where it would now answer otherwise, or not at all. *)
Theorem resolved_interpreter_settled host self l st i :
  cached st = Some i →
  cached (accesses host self l st) = Some i
  ∧ queries (trace (accesses host self l st)) = queries (trace st)
  ∧ _resolved_interpreter self (accesses host self l st) =
      (Return i, accesses host self l st).
Proof.
  intros Hc.
  destruct (blind_accesses settled settled_blind host self
              (or_intror (_resolved_interpreter_settled self)) l st i Hc)
    as [Hc' Hq].
  repeat split; try done. by apply _resolved_interpreter_cached.
Qed.

(** An instance that holds Python 3.11 while the finder has no match for
    its hint any more. *)
Lemma resolved_interpreter_settled_witness :
  cached (accesses Sample.bad_host Sample.venv_unknown
            [CallCreate None [] true false; GetIdent]
            (mkState (Some Sample.py311) Sample.fs_taken [])) =
    Some Sample.py311.
Proof.
  apply (resolved_interpreter_settled Sample.bad_host Sample.venv_unknown
           [CallCreate None [] true false; GetIdent]
           (mkState (Some Sample.py311) Sample.fs_taken []) Sample.py311).
  reflexivity.
Defined.

(** *** From hint to environment *)

Lemma _resolved_interpreter_first_match self st hint i rest :
  python self = Some hint → hint ≠ "" →
  find_interpreters (project self) hint = i :: rest → cached st = None →
  _resolved_interpreter self st =
    (Return i, mkState (Some i) (fs st) (trace st ++ [EvFindInterpreters hint])).
Proof.
  intros Hp Hne Hf Hc. unfold _resolved_interpreter, resolve.
  unfold mbind, M_bind, bind, get_cached, set_cached, emit, ret. rewrite Hp.
  destruct hint as [|c h]; [done|]. simpl. by rewrite Hc, Hf.
Qed.

(** X9: a venv backend whose hint has a match, with the parent directory
    in place, no name given and nothing at the location: [create] takes
    the first match of the finder, names the location by that
    interpreter's identifier, asks the finder once, runs
    [<its executable> -m venv <location>] with the extra arguments and,
    the command returning 0, returns the location. *)
Theorem venv_create_end_to_end
    host self args force st hint i rest location cmd f' :
  kind self = VenvBackend →
  python self = Some hint → hint ≠ "" →
  find_interpreters (project self) hint = i :: rest →
  cached st = None →
  is_dir (fs st) (venv_location (project self)) = true →
  location = joinpath (venv_location (project self))
                      (get_venv_prefix (project self) +:+ identifier i) →
  exists_ (fs st) location = false →
  cmd = [executable i; "-m"; "venv"; str location] ++ args →
  spawn host cmd (fs st) = (Exited 0, f') →
  create host self None args force false st =
    (Return location,
     mkState (Some i) f'
       (trace st ++ [EvFindInterpreters hint;
                     EvEcho (RunCommand cmd) false DETAIL;
                     EvCheckCall cmd (Exited 0)])).
Proof.
  intros Hk Hp Hne Hf Hc Hd -> Hfree -> Hspawn.
  pose proof (_resolved_interpreter_first_match self st hint i rest
                Hp Hne Hf Hc) as Hres.
  set (st1 := mkState (Some i) (fs st) (trace st ++ [EvFindInterpreters hint]))
    in *.
  assert (ident self st = (Return (identifier i), st1)) as Hid.
  { unfold ident. rewrite Hk. by rewrite (bind_Return _ _ _ _ _ Hres). }
  unfold create, create_location.
  assert (get_location self None st =
            (Return (joinpath (venv_location (project self))
                       (get_venv_prefix (project self) +:+ identifier i)),
             st1)) as Hloc.
  { rewrite get_location_run, Hd. simpl negb. cbv iota.
    rewrite (bind_Return _ _ st tt st) by done.
    by rewrite (bind_Return _ _ _ _ _ Hid). }
  rewrite (bind_Return _ _ _ _ _ Hloc).
  rewrite (bind_Return _ _ _ _ _
             (_ensure_clean_absent self _ force st1 Hfree)).
  assert (perform_create host self
            (joinpath (venv_location (project self))
               (get_venv_prefix (project self) +:+ identifier i)) args st1 =
          (Return tt,
           mkState (Some i) f'
             (trace st1 ++
              [EvEcho (RunCommand
                 ([executable i; "-m"; "venv";
                   str (joinpath (venv_location (project self))
                          (get_venv_prefix (project self) +:+ identifier i))]
                  ++ args)) false DETAIL;
               EvCheckCall
                 ([executable i; "-m"; "venv";
                   str (joinpath (venv_location (project self))
                          (get_venv_prefix (project self) +:+ identifier i))]
                  ++ args) (Exited 0)]))) as Hrun.
  { unfold perform_create. rewrite Hk.
    rewrite (bind_Return _ _ _ _ _
               (_resolved_interpreter_cached self st1 i eq_refl)).
    rewrite subprocess_call_run. simpl fs. by rewrite Hspawn. }
  rewrite (bind_Return _ _ _ _ _ Hrun). unfold ret. simpl.
  by rewrite <- app_assoc.
Qed.

(** On the sample project: the hint ["3.11"] has two matches, the first is
    taken. *)
Lemma venv_create_end_to_end_witness :
  create Sample.good_host (mkBackend VenvBackend Sample.proj (Some "3.11"))
         None ["--copies"] false false (Sample.fresh Sample.fs_ready) =
    (Return ["proj-cpython-3.11"; "envs"],
     mkState (Some Sample.py311) Sample.fs_ready
       [EvFindInterpreters "3.11";
        EvEcho (RunCommand ["/usr/bin/python3.11"; "-m"; "venv";
                            "/envs/proj-cpython-3.11"; "--copies"])
               false DETAIL;
        EvCheckCall ["/usr/bin/python3.11"; "-m"; "venv";
                     "/envs/proj-cpython-3.11"; "--copies"] (Exited 0)]).
Proof.
  apply (venv_create_end_to_end
           Sample.good_host (mkBackend VenvBackend Sample.proj (Some "3.11"))
           ["--copies"] false (Sample.fresh Sample.fs_ready) "3.11"
           Sample.py311 [Sample.py39]).
  - reflexivity.
  - reflexivity.
  - discriminate.
  - reflexivity.
  - reflexivity.
  - vm_compute. reflexivity.
  - vm_compute. reflexivity.
  - vm_compute. reflexivity.
  - vm_compute. reflexivity.
  - reflexivity.
Defined.

(** *** A file in the way of the parent directory *)

Lemma mkdir_parents_exist_ok_file (f : FS) (p : Path) c :
  f !! p = Some (File c) → mkdir_parents_exist_ok p f = inl FileExistsError.
Proof.
  intros Hp. destruct p; simpl; unfold os_mkdir, is_dir; by rewrite Hp.
Qed.

(** X10: where the configured parent directory exists as a plain file,
    [create] outside the project raises the [FileExistsError] of [mkdir]
    at once: no interpreter is resolved, nothing is removed even on
    [force], and no command is run. *)
Theorem create_parent_is_file host self name args force st c :
  fs st !! venv_location (project self) = Some (File c) →
  create host self name args force false st =
    (Raise (OSError FileExistsError),
     mkState (cached st) (fs st)
             (trace st ++ [EvMkdir (venv_location (project self))])).
Proof.
  intros Hp. unfold create, create_location.
  apply bind_Raise. rewrite get_location_run.
  unfold is_dir. rewrite Hp. simpl negb. cbv iota.
  apply bind_Raise. unfold mkdir. rewrite fs_call_run.
  by rewrite (mkdir_parents_exist_ok_file _ _ c Hp).
Qed.

(** On the sample project, with a file named [/envs]. *)
Lemma create_parent_is_file_witness :
  create Sample.good_host Sample.venv39 None [] true false
         (Sample.fresh Sample.fs_parent_file) =
    (Raise (OSError FileExistsError),
     mkState None Sample.fs_parent_file [EvMkdir ["envs"]]).
Proof.
  apply (create_parent_is_file Sample.good_host Sample.venv39 None [] true
           (Sample.fresh Sample.fs_parent_file) "").
  vm_compute. reflexivity.
Defined.

(** *** What [create] removes *)

(** The three steps of [create], whichever of them raises. *)
Lemma create_phases host self name args force in_project st r st' :
  create host self name args force in_project st = (r, st') →
  (∃ e, create_location self name in_project st = (Raise e, st') ∧ r = Raise e)
  ∨ ∃ location st1 rc st2,
      create_location self name in_project st = (Return location, st1)
      ∧ _ensure_clean self location force st1 = (rc, st2)
      ∧ ((∃ e, rc = Raise e ∧ r = Raise e ∧ st' = st2)
         ∨ (rc = Return tt
            ∧ ∃ rp, perform_create host self location args st2 = (rp, st')
                    ∧ r = match rp with
                          | Return _ => Return location
                          | Raise e => Raise e
                          end)).
Proof.
  unfold create.
  intros [(location & st1 & Hloc & H)|(e & Hloc & ->)]%bind_inv;
    [right|left; by exists e].
  apply bind_inv in H as [([] & st2 & Hclean & H)|(e & Hclean & ->)].
  - exists location, st1, (Return tt), st2. repeat split; try done. right.
    split; [done|].
    apply bind_inv in H as [([] & st3 & Hp & [= <- <-])|(e & Hp & ->)];
      by eexists.
  - exists location, st1, (Raise e), st'. repeat split; try done. left.
    by exists e.
Qed.


(** The clean check removes on [force] only, what it removes is the
    location, which was there, and the notice and the removal are all it
    does then. *)
Lemma _ensure_clean_rmtree self location force st r st' evs p :
  _ensure_clean self location force st = (r, st') →
  trace st' = trace st ++ evs → EvRmtree p ∈ evs →
  force = true ∧ exists_ (fs st) location = true ∧ p = location
  ∧ evs = cleaning_events location.
Proof.
  intros H Ht Hp. destruct (exists_ (fs st) location) eqn:He.
  - destruct force.
    + rewrite _ensure_clean_force in H by done.
      assert (trace st' = trace st ++ cleaning_events location) as Ht'
        by (by destruct (rmtree (fs st) location); injection H as <- <-).
      rewrite Ht' in Ht. apply app_inv_head in Ht as <-.
      apply elem_of_cons in Hp as [?|Hp]; [done|].
      by apply list_elem_of_singleton in Hp as [= ->].
    + rewrite _ensure_clean_refuses in H by done. injection H as <- <-.
      rewrite <- (app_nil_r (trace st)) in Ht at 1.
      apply app_inv_head in Ht as <-. by apply elem_of_nil in Hp.
  - rewrite _ensure_clean_absent in H by done. injection H as <- <-.
    rewrite <- (app_nil_r (trace st)) in Ht at 1.
    apply app_inv_head in Ht as <-. by apply elem_of_nil in Hp.
Qed.



(** X13: [create] removes only on [force]: when it calls [rmtree], [force]
    was set, the path is the target location, which existed, and the
    notice on the error stream was printed right before. *)
Theorem create_removes_only_on_force
    host self name args force in_project st r st' evs p :
  create host self name args force in_project st = (r, st') →
  trace st' = trace st ++ evs →
  EvRmtree p ∈ evs →
  force = true
  ∧ (∃ st1, create_location self name in_project st = (Return p, st1)
            ∧ exists_ (fs st1) p = true)
  ∧ ∃ pre post, evs = pre ++ cleaning_events p ++ post
                ∧ ∀ e, e ∈ pre ++ post → is_rmtree e = false.
Proof.
  intros Hcreate Ht Hp.
  apply create_phases in Hcreate
    as [(e & Hloc & _)|(l & st1 & rc & st2 & Hloc & Hclean & Hrest)].
  { pose proof (create_location_appends self name in_project _ _ _ Hloc) as Ha.
    by pose proof (appends_elem _ _ _ _ _ Ha Ht Hp). }
  pose proof (create_location_appends self name in_project _ _ _ Hloc)
    as (evsA & HtA & HeA)%appends_elems.
  pose proof (_ensure_clean_appends self l force _ _ _ Hclean)
    as (evsB & HtB & _)%appends_elems.
  assert (∃ evsC, trace st' = trace st2 ++ evsC
                  ∧ ∀ e, e ∈ evsC → is_rmtree e = false)
    as (evsC & HtC & HeC).
  { destruct Hrest as [(e & _ & _ & ->)|(_ & rp & Hperf & _)].
    - exists []. split; [by rewrite app_nil_r|]. by intros ev ?%elem_of_nil.
    - apply perform_create_appends, appends_elems in Hperf
        as (evsC & HtC & HeC).
      exists evsC. split; [done|]. intros e Hq%HeC. by destruct e. }
  rewrite HtC, HtB, HtA, <- !app_assoc in Ht.
  apply app_inv_head in Ht as <-.
  assert (EvRmtree p ∈ evsB) as HpB.
  { rewrite !elem_of_app in Hp. destruct Hp as [Hp%HeA|[Hp|Hp%HeC]]; done. }
  destruct (_ensure_clean_rmtree self l force st1 rc st2 evsB p Hclean HtB HpB)
    as (Hforce & Hex & -> & ->).
  split; [done|]. split; [by exists st1|].
  exists evsA, evsC. split; [done|].
  intros e [Hq%HeA|Hq%HeC]%elem_of_app; [by destruct e|done].
Qed.

(** On the sample project, with the target directory taken. *)
Lemma create_removes_only_on_force_witness :
  ∃ st1, create_location Sample.venv39 None false
           (Sample.fresh Sample.fs_taken) = (Return Sample.target, st1)
         ∧ exists_ (fs st1) Sample.target = true.
Proof.
  refine (proj1 (proj2 (create_removes_only_on_force
    Sample.good_host Sample.venv39 None [] true false
    (Sample.fresh Sample.fs_taken) _
    (create Sample.good_host Sample.venv39 None [] true false
            (Sample.fresh Sample.fs_taken)).2
    (trace (create Sample.good_host Sample.venv39 None [] true false
                   (Sample.fresh Sample.fs_taken)).2)
    Sample.target _ _ _))).
  - apply surjective_pairing.
  - reflexivity.
  - vm_compute. do 2 apply list_elem_of_further. apply list_elem_of_here.
Defined.
